(** * Audio-to-text: the transcription pipeline of [backend/vosk_utils.py]
    and the HTTP layer of [backend/server.py]

    A shallow embedding of [get_model], [get_recognizer],
    [convert_audio_to_wav], [transcribe_audio], [get_available_languages]
    and [health_check], of the endpoints of [server.py] that call them
    ([transcribe_audio_file], [health_check_endpoint]) with the two
    history endpoints that address one document ([get_transcription],
    [delete_transcription]), and of [get_backend_url] of the test
    client, with the properties of the pipeline stated over it.

    Conventions of the embedding:
    - a Python [str] is a [string]; case mapping and white space are those
      of the ASCII repertoire (characters above 127 have no case and are
      not white space);
    - a Python [dict] with string keys is a [gmap string _];
    - a call that may raise returns a [res]: [Ok v] or [Raise msg], where
      [msg] is what [str(e)] gives in the handlers;
    - the third-party libraries (vosk, pydub, wave, tempfile, os) and the
      two import-time flags are the fields of [Externals];
    - the mutable process state (the file system and the module-level
      [_model_cache]) is the record [World], passed explicitly;
    - [logger] calls have no effect on the state and are left out.

    Left out: [get_transcriptions] (the order in which the store returns
    documents of equal [createdAt] is not fixed by the code), the
    fall-back definitions of [server.py] for a missing [vosk_utils], and
    the test methods of [backend_test.py], which talk to a running
    server. *)

From Stdlib Require Import String Ascii List NArith ZArith Lia Bool.
From Stdlib Require Import PrimFloat.
From stdpp Require Import base option strings gmap pretty.

Import ListNotations.
Local Open Scope string_scope.

(** ** Python string primitives *)

Module Py.

(** [bool(s)] for a [str]: non-empty. *)
Definition truthy (s : string) : bool :=
  match s with
  | EmptyString => false
  | String _ _ => true
  end.

(** [c.isspace()] on ASCII: TAB..CR, FS..US and SPACE. *)
Definition isspace (c : ascii) : bool :=
  let n := N_of_ascii c in
  ((9 <=? n) && (n <=? 13) || (28 <=? n) && (n <=? 32))%N.

Definition is_upper (c : ascii) : bool :=
  let n := N_of_ascii c in ((65 <=? n) && (n <=? 90))%N.

Definition is_lower (c : ascii) : bool :=
  let n := N_of_ascii c in ((97 <=? n) && (n <=? 122))%N.

Definition upper_char (c : ascii) : ascii :=
  if is_lower c then ascii_of_N (N_of_ascii c - 32) else c.

Definition lower_char (c : ascii) : ascii :=
  if is_upper c then ascii_of_N (N_of_ascii c + 32) else c.

(** [s.lower()] *)
Fixpoint lower (s : string) : string :=
  match s with
  | EmptyString => EmptyString
  | String c t => String (lower_char c) (lower t)
  end.

(** [s.capitalize()]: the first character upper-cased, all the others
    lower-cased. *)
Definition capitalize (s : string) : string :=
  match s with
  | EmptyString => EmptyString
  | String c t => String (upper_char c) (lower t)
  end.

Fixpoint lstrip (s : string) : string :=
  match s with
  | EmptyString => EmptyString
  | String c t => if isspace c then lstrip t else s
  end.

Definition rstrip (s : string) : string :=
  String.rev (lstrip (String.rev s)).

(** [s.strip()] *)
Definition strip (s : string) : string := rstrip (lstrip s).

(** [s.endswith(suffix)] *)
Definition endswith (s suffix : string) : bool :=
  String.prefix (String.rev suffix) (String.rev s).

(** [sep.join(parts)] *)
Definition join (sep : string) (parts : list string) : string :=
  String.concat sep parts.

(** [s.split(sep)] for a non-empty [sep]: the occurrences of [sep] are
    found from the left and do not overlap.  [skip] counts the
    characters of a separator just recognised that are still to be
    passed over; the head of the result is the segment being read. *)
Fixpoint split_go (sep : string) (skip : nat) (s : string) : list string :=
  match s with
  | EmptyString => [EmptyString]
  | String c t =>
      match skip with
      | S k => split_go sep k t
      | O =>
          if String.prefix sep s
          then EmptyString :: split_go sep (String.length sep - 1) t
          else match split_go sep 0 t with
               | seg :: segs => String c seg :: segs
               | [] => [String c EmptyString]
               end
      end
  end.

Definition split (s sep : string) : list string := split_go sep 0 s.

End Py.

(** ** The text post-processing step of [transcribe_audio] (lines 176-185) *)

Definition postProcess (final_text : string) : string :=
  if Py.truthy final_text then
    let sentences := Py.split final_text ". " in
    let sentences := map Py.capitalize sentences in
    let final_text := Py.join ". " sentences in
    if negb (Py.endswith final_text ".") then final_text ++ "." else final_text
  else final_text.




(** ** Values, results and the process state *)

(** The outcome of a call that may raise; [msg] is [str(e)]. *)
Inductive res (A : Type) : Type :=
| Ok (a : A)
| Raise (msg : string).
Arguments Ok {A} a.
Arguments Raise {A} msg.

(** The Python values that occur in the result dictionaries and in the
    decoded JSON of the recogniser. *)
Inductive pyval : Type :=
| VNone
| VBool (b : bool)
| VInt (n : Z)
| VFloat (f : float)
| VStr (s : string).

Definition type_name (v : pyval) : string :=
  match v with
  | VNone => "NoneType"
  | VBool _ => "bool"
  | VInt _ => "int"
  | VFloat _ => "float"
  | VStr _ => "str"
  end.

(** One frame of a WAV file: the bytes of one sample of every channel. *)
Definition frame : Type := list Byte.byte.

Inductive file : Type :=
| Directory
| EmptyFile
| WavFile (frames : list frame).

(** The third-party libraries and the import-time flags. *)
Record Externals : Type := {
  Model : Type;
  KaldiRecognizer : Type;
  AudioSegment : Type;
  VOSK_AVAILABLE : bool;
  PYDUB_AVAILABLE : bool;
  BASE_DIR : string;
  (** [vosk.Model(path)] *)
  Model_new : string -> res Model;
  (** [vosk.KaldiRecognizer(model, sample_rate)] *)
  KaldiRecognizer_new : Model -> Z -> res KaldiRecognizer;
  (** [recognizer.AcceptWaveform(data)]: the answer and the recogniser
      after the call *)
  AcceptWaveform : KaldiRecognizer -> list Byte.byte -> res (bool * KaldiRecognizer);
  (** [json.loads(recognizer.Result())] *)
  Result : KaldiRecognizer -> res (gmap string pyval * KaldiRecognizer);
  (** [json.loads(recognizer.FinalResult())] *)
  FinalResult : KaldiRecognizer -> res (gmap string pyval * KaldiRecognizer);
  (** [AudioSegment.from_file(file_path)] *)
  from_file : string -> res AudioSegment;
  set_frame_rate : AudioSegment -> Z -> res AudioSegment;
  set_channels : AudioSegment -> Z -> res AudioSegment;
  (** [tempfile.NamedTemporaryFile(suffix=..., delete=False)]: the name of
      the file it creates *)
  NamedTemporaryFile : gmap string file -> string -> res string;
  (** [audio.export(path, format="wav")]: the frames it writes *)
  export : AudioSegment -> res (list frame);
  (** [os.unlink(path)] on an existing file: [Some msg] when it raises *)
  unlink_error : string -> option string
}.

(** The file system and the module-level [_model_cache]. *)
Record World (E : Externals) : Type := mkWorld {
  fs : gmap string file;
  _model_cache : gmap string (Model E)
}.
Arguments mkWorld {E} fs _model_cache.
Arguments fs {E} w.
Arguments _model_cache {E} w.

Definition set_fs {E} (w : World E) (f : gmap string file) : World E :=
  mkWorld f (_model_cache w).

Definition set_cache {E} (w : World E) (c : gmap string (Model E)) : World E :=
  mkWorld (fs w) c.

(** [path.exists()] / [os.path.exists(path)] *)
Definition path_exists {E} (w : World E) (path : string) : bool :=
  bool_decide (is_Some (fs w !! path)).

(** ** The model registry *)

Definition MODEL_PATHS (E : Externals) : gmap string string :=
  {[ "en" := BASE_DIR E ++ "/models/vosk-model-small-en-us-0.15";
     "ru" := BASE_DIR E ++ "/models/vosk-model-small-ru-0.22";
     "kz" := BASE_DIR E ++ "/models/vosk-model-small-kz-0.15" ]}.

Definition get_model (E : Externals) (lang : string) (w : World E)
  : option (Model E) * World E :=
  if negb (VOSK_AVAILABLE E) then (None, w)
  else
    match _model_cache w !! lang with
    | Some model => (Some model, w)
    | None =>
        match MODEL_PATHS E !! lang with
        | None => (None, w)
        | Some model_path =>
            if negb (path_exists w model_path) then (None, w)
            else
              match Model_new E model_path with
              | Ok model => (Some model, set_cache w (<[lang := model]> (_model_cache w)))
              | Raise _ => (None, w)
              end
        end
    end.

Definition get_recognizer (E : Externals) (lang : string) (sample_rate : Z) (w : World E)
  : option (KaldiRecognizer E) * World E :=
  match get_model E lang w with
  | (None, w) => (None, w)
  | (Some model, w) =>
      match KaldiRecognizer_new E model sample_rate with
      | Ok recognizer => (Some recognizer, w)
      | Raise _ => (None, w)
      end
  end.

(** ** The audio normaliser *)

Definition convert_audio_to_wav (E : Externals) (file_path : string) (sample_rate : Z)
  (w : World E) : option string * World E :=
  if negb (PYDUB_AVAILABLE E) then (None, w)
  else
    match from_file E file_path with
    | Raise _ => (None, w)
    | Ok audio =>
        match set_frame_rate E audio sample_rate with
        | Raise _ => (None, w)
        | Ok audio =>
            match set_channels E audio 1 with
            | Raise _ => (None, w)
            | Ok audio =>
                match NamedTemporaryFile E (fs w) ".wav" with
                | Raise _ => (None, w)
                | Ok wav_path =>
                    let w := set_fs w (<[wav_path := EmptyFile]> (fs w)) in
                    match export E audio with
                    | Raise _ => (None, w)
                    | Ok frames =>
                        (Some wav_path, set_fs w (<[wav_path := WavFile frames]> (fs w)))
                    end
                end
            end
        end
    end.

(** ** The recognition loop *)

(** [wave.open(path, 'rb')]: the frames of the file. *)
Definition wave_open (files : gmap string file) (path : string) : res (list frame) :=
  match files !! path with
  | Some (WavFile frames) => Ok frames
  | Some EmptyFile => Raise ""
  | Some Directory => Raise ("[Errno 21] Is a directory: '" ++ path ++ "'")
  | None => Raise ("[Errno 2] No such file or directory: '" ++ path ++ "'")
  end.

(** The successive values of [wf.readframes(n)]: slices of [n] frames
    until the frames are used up ([fuel] bounds the number of slices and
    the number of frames is enough of it). *)
Fixpoint readframes_go (fuel n : nat) (frames : list frame) : list (list frame) :=
  match fuel with
  | O => []
  | S fuel =>
      match frames with
      | [] => []
      | _ :: _ => firstn n frames :: readframes_go fuel n (skipn n frames)
      end
  end.

Definition readframes_all (n : nat) (frames : list frame) : list (list frame) :=
  readframes_go (length frames) n frames.

(** The two statements
    [if result.get('text', '').strip(): result_text.append(result['text'])]. *)
Definition collect (result_text : list string) (result : gmap string pyval)
  : res (list string) :=
  match default (VStr "") (result !! "text") with
  | VStr text =>
      if Py.truthy (Py.strip text) then Ok (result_text ++ [text])%list else Ok result_text
  | v => Raise ("'" ++ type_name v ++ "' object has no attribute 'strip'")
  end.

(** One turn of the [while] loop on a non-empty [data]. *)
Definition feed (E : Externals) (recognizer : KaldiRecognizer E)
  (result_text : list string) (data : list Byte.byte)
  : res (KaldiRecognizer E * list string) :=
  match AcceptWaveform E recognizer data with
  | Raise e => Raise e
  | Ok (false, recognizer) => Ok (recognizer, result_text)
  | Ok (true, recognizer) =>
      match Result E recognizer with
      | Raise e => Raise e
      | Ok (result, recognizer) =>
          match collect result_text result with
          | Raise e => Raise e
          | Ok result_text => Ok (recognizer, result_text)
          end
      end
  end.

(** The [while True] loop over the values that [readframes] returns; the
    loop is left at the first empty [data]. *)
Fixpoint feed_loop (E : Externals) (recognizer : KaldiRecognizer E)
  (result_text : list string) (reads : list (list frame))
  : res (KaldiRecognizer E * list string) :=
  match reads with
  | [] => Ok (recognizer, result_text)
  | chunk :: reads =>
      let data := concat chunk in
      if (length data =? 0)%nat then Ok (recognizer, result_text)
      else
        match feed E recognizer result_text data with
        | Raise e => Raise e
        | Ok (recognizer, result_text) => feed_loop E recognizer result_text reads
        end
  end.

(** [recognizer.FinalResult()] and the collection of its text. *)
Definition finalize (E : Externals) (recognizer : KaldiRecognizer E)
  (result_text : list string) : res (list string) :=
  match FinalResult E recognizer with
  | Raise e => Raise e
  | Ok (final_result, _) => collect result_text final_result
  end.

(** The body of [with wave.open(wav_path, 'rb') as wf]. *)
Definition recognize_file (E : Externals) (recognizer : KaldiRecognizer E)
  (files : gmap string file) (wav_path : string) : res (list string) :=
  match wave_open files wav_path with
  | Raise e => Raise e
  | Ok frames =>
      let chunk_size := 4000%nat in
      match feed_loop E recognizer [] (readframes_all chunk_size frames) with
      | Raise e => Raise e
      | Ok (recognizer, result_text) => finalize E recognizer result_text
      end
  end.

(** ** The orchestrator *)

Definition lang_map : gmap string string :=
  {[ "en" := "en"; "ru" := "ru"; "kz" := "kz"; "auto" := "en" ]}.

(** [lang_map.get(language, "en")] *)
Definition vosk_lang_of (language : string) : string :=
  default "en" (lang_map !! language).

(** The literal [0.8]. *)
Definition confidence_0_8 : float := 0x1.999999999999ap-1%float.

Definition failure_result (error : string) : gmap string pyval :=
  {[ "success" := VBool false; "error" := VStr error; "text" := VStr "" ]}.

Definition success_result (final_text vosk_lang : string) : gmap string pyval :=
  {[ "success" := VBool true; "text" := VStr final_text;
     "language" := VStr vosk_lang; "confidence" := VFloat confidence_0_8 ]}.

(** The [finally] clause: [if os.path.exists(wav_path): os.unlink(wav_path)]. *)
Definition cleanup (E : Externals) (wav_path : string) (w : World E) : res (World E) :=
  if path_exists w wav_path then
    match unlink_error E wav_path with
    | Some msg => Raise msg
    | None => Ok (set_fs w (delete wav_path (fs w)))
    end
  else Ok w.

Definition transcribe_audio (E : Externals) (file_path language : string) (w : World E)
  : gmap string pyval * World E :=
  if negb (VOSK_AVAILABLE E) then
    (failure_result "Vosk speech recognition is not available", w)
  else
    let vosk_lang := vosk_lang_of language in
    match convert_audio_to_wav E file_path 16000 w with
    | (None, w) => (failure_result "Failed to convert audio to WAV format", w)
    | (Some wav_path, w) =>
        if negb (Py.truthy wav_path) then
          (failure_result "Failed to convert audio to WAV format", w)
        else
          match get_recognizer E vosk_lang 16000 w with
          | (None, w) =>
              (failure_result
                 ("Failed to load speech recognition model for " ++ vosk_lang), w)
          | (Some recognizer, w) =>
              let outcome := recognize_file E recognizer (fs w) wav_path in
              match cleanup E wav_path w with
              | Raise e =>
                  (* raised in the [finally] clause: caught by the outer handler *)
                  (failure_result ("Transcription failed: " ++ e), w)
              | Ok w =>
                  match outcome with
                  | Raise e => (failure_result ("Audio processing failed: " ++ e), w)
                  | Ok result_text =>
                      let final_text := Py.strip (Py.join " " result_text) in
                      let final_text := postProcess final_text in
                      (success_result final_text vosk_lang, w)
                  end
              end
          end
    end.

(** ** A concrete engine and concrete process states

    A small deterministic instance of [Externals], used to run the
    pipeline on concrete inputs: every chunk ends an utterance that reads
    "hello world", the final result is empty, and the file
    "/uploads/silence.ogg" decodes to no frame at all. *)

Module Demo.

Definition sample : frame := [Byte.x10; Byte.x00].

Definition engine : Externals := {|
  Model := string;
  KaldiRecognizer := nat;
  AudioSegment := list frame;
  VOSK_AVAILABLE := true;
  PYDUB_AVAILABLE := true;
  BASE_DIR := "/app/backend";
  Model_new := fun path => Ok path;
  KaldiRecognizer_new := fun _ _ => Ok O;
  AcceptWaveform := fun fed _ => Ok (true, S fed);
  Result := fun fed => Ok ({[ "text" := VStr "hello world" ]}, fed);
  FinalResult := fun fed => Ok ({[ "text" := VStr "" ]}, fed);
  from_file := fun path =>
    if String.eqb path "/uploads/silence.ogg" then Ok [] else Ok [sample; sample; sample];
  set_frame_rate := fun audio _ => Ok audio;
  set_channels := fun audio _ => Ok audio;
  NamedTemporaryFile := fun _ suffix => Ok ("/tmp/tmpk3v9" ++ suffix);
  export := fun audio => Ok audio;
  unlink_error := fun _ => None
|}.

(** The same engine without the vosk package. *)
Definition engine_without_vosk : Externals := {|
  Model := Model engine;
  KaldiRecognizer := KaldiRecognizer engine;
  AudioSegment := AudioSegment engine;
  VOSK_AVAILABLE := false;
  PYDUB_AVAILABLE := true;
  BASE_DIR := BASE_DIR engine;
  Model_new := Model_new engine;
  KaldiRecognizer_new := KaldiRecognizer_new engine;
  AcceptWaveform := AcceptWaveform engine;
  Result := Result engine;
  FinalResult := FinalResult engine;
  from_file := from_file engine;
  set_frame_rate := set_frame_rate engine;
  set_channels := set_channels engine;
  NamedTemporaryFile := NamedTemporaryFile engine;
  export := export engine;
  unlink_error := unlink_error engine
|}.

Definition en_path : string := "/app/backend/models/vosk-model-small-en-us-0.15".

(** The English model is installed, nothing is loaded yet. *)
Definition world_en : World engine := mkWorld {[ en_path := Directory ]} ∅.

(** No model is installed, nothing is loaded. *)
Definition world_empty : World engine := mkWorld ∅ ∅.

(** The English model was loaded earlier and its directory has since
    been removed. *)
Definition world_stale : World engine := mkWorld ∅ {[ "en" := en_path ]}.

Definition tmp_wav : string := "/tmp/tmpk3v9.wav".

End Demo.

(** ** Predicates of the statements *)

(** A fragment with content that is not white space. *)
Definition nonblank (text : string) : Prop :=
  Py.truthy (Py.strip text) = true.

(** The text entry of a decoded result is absent, empty or white space. *)
Definition blank_result (result : gmap string pyval) : Prop :=
  match default (VStr "") (result !! "text") with
  | VStr text => Py.truthy (Py.strip text) = false
  | _ => False
  end.

(** The location configured for the model of [lang] is not on disk. *)
Definition model_location_missing {E : Externals} (w : World E) (lang : string) : Prop :=
  match MODEL_PATHS E !! lang with
  | Some model_path => fs w !! model_path = None
  | None => True
  end.

(** The result shape of the specification:
    [{success: bool, text: string, language: LanguageCode, error: optional string}]. *)
Definition TranscriptionResult_shape (d : gmap string pyval) : Prop :=
  (exists b, d !! "success" = Some (VBool b)) /\
  (exists t, d !! "text" = Some (VStr t)) /\
  (exists l, d !! "language" = Some (VStr l)) /\
  (d !! "error" = None \/ exists e, d !! "error" = Some (VStr e)).

(** The two shapes that the code builds. *)
Definition success_shape (d : gmap string pyval) (lang : string) : Prop :=
  d !! "success" = Some (VBool true) /\
  (exists t, d !! "text" = Some (VStr t)) /\
  d !! "language" = Some (VStr lang) /\
  d !! "confidence" = Some (VFloat confidence_0_8) /\
  d !! "error" = None.

Definition failure_shape (d : gmap string pyval) : Prop :=
  d !! "success" = Some (VBool false) /\
  d !! "text" = Some (VStr "") /\
  (exists e, d !! "error" = Some (VStr e)) /\
  d !! "language" = None /\
  d !! "confidence" = None.

(** ** Engines that fail, to run the failure paths *)

Module DemoFaults.

(** [os.unlink] is refused. *)
Definition engine_unlink_refused : Externals := {|
  Model := Model Demo.engine;
  KaldiRecognizer := KaldiRecognizer Demo.engine;
  AudioSegment := AudioSegment Demo.engine;
  VOSK_AVAILABLE := true;
  PYDUB_AVAILABLE := true;
  BASE_DIR := BASE_DIR Demo.engine;
  Model_new := Model_new Demo.engine;
  KaldiRecognizer_new := KaldiRecognizer_new Demo.engine;
  AcceptWaveform := AcceptWaveform Demo.engine;
  Result := Result Demo.engine;
  FinalResult := FinalResult Demo.engine;
  from_file := from_file Demo.engine;
  set_frame_rate := set_frame_rate Demo.engine;
  set_channels := set_channels Demo.engine;
  NamedTemporaryFile := NamedTemporaryFile Demo.engine;
  export := export Demo.engine;
  unlink_error := fun path => Some ("[Errno 13] Permission denied: '" ++ path ++ "'")
|}.

(** The recogniser raises on the first chunk. *)
Definition engine_recognizer_raises : Externals := {|
  Model := Model Demo.engine;
  KaldiRecognizer := KaldiRecognizer Demo.engine;
  AudioSegment := AudioSegment Demo.engine;
  VOSK_AVAILABLE := true;
  PYDUB_AVAILABLE := true;
  BASE_DIR := BASE_DIR Demo.engine;
  Model_new := Model_new Demo.engine;
  KaldiRecognizer_new := KaldiRecognizer_new Demo.engine;
  AcceptWaveform := fun _ _ => Raise "Failed to process waveform";
  Result := Result Demo.engine;
  FinalResult := FinalResult Demo.engine;
  from_file := from_file Demo.engine;
  set_frame_rate := set_frame_rate Demo.engine;
  set_channels := set_channels Demo.engine;
  NamedTemporaryFile := NamedTemporaryFile Demo.engine;
  export := export Demo.engine;
  unlink_error := unlink_error Demo.engine
|}.

(** The export of the decoded audio raises. *)
Definition engine_export_raises : Externals := {|
  Model := Model Demo.engine;
  KaldiRecognizer := KaldiRecognizer Demo.engine;
  AudioSegment := AudioSegment Demo.engine;
  VOSK_AVAILABLE := true;
  PYDUB_AVAILABLE := true;
  BASE_DIR := BASE_DIR Demo.engine;
  Model_new := Model_new Demo.engine;
  KaldiRecognizer_new := KaldiRecognizer_new Demo.engine;
  AcceptWaveform := AcceptWaveform Demo.engine;
  Result := Result Demo.engine;
  FinalResult := FinalResult Demo.engine;
  from_file := from_file Demo.engine;
  set_frame_rate := set_frame_rate Demo.engine;
  set_channels := set_channels Demo.engine;
  NamedTemporaryFile := NamedTemporaryFile Demo.engine;
  export := fun _ => Raise "[Errno 28] No space left on device";
  unlink_error := unlink_error Demo.engine
|}.

Definition world_en_export_raises : World engine_export_raises :=
  mkWorld {[ Demo.en_path := Directory ]} ∅.

Definition world_en_unlink_refused : World engine_unlink_refused :=
  mkWorld {[ Demo.en_path := Directory ]} ∅.

Definition world_en_recognizer_raises : World engine_recognizer_raises :=
  mkWorld {[ Demo.en_path := Directory ]} ∅.

End DemoFaults.

(** ** Availability and health ([get_available_languages], [health_check]) *)

Definition lang_names : gmap string string :=
  {[ "en" := "English"; "ru" := "Russian"; "kz" := "Kazakh" ]}.

(** The loop over [MODEL_PATHS.items()]; the keys are distinct, so the
    dictionary that is built does not depend on the order of the visit. *)
Definition get_available_languages (E : Externals) (w : World E) : gmap string string :=
  map_fold
    (fun lang path available =>
       if path_exists w path
       then <[lang := default lang (lang_names !! lang)]> available
       else available)
    ∅ (MODEL_PATHS E).

(** The dictionary that [health_check] returns; its four keys are fixed. *)
Record HealthStatus : Type := mkHealthStatus {
  vosk_available : bool;
  pydub_available : bool;
  models_available : gmap string bool;
  ready : bool
}.

(** [any(d.values())] *)
Definition any_values (d : gmap string bool) : bool :=
  existsb (fun v => v) (map snd (map_to_list d)).

Definition health_check (E : Externals) (w : World E) : HealthStatus :=
  let models_available :=
    if VOSK_AVAILABLE E
    then map_fold (fun lang path status => <[lang := path_exists w path]> status)
                  ∅ (MODEL_PATHS E)
    else ∅ in
  mkHealthStatus (VOSK_AVAILABLE E) (PYDUB_AVAILABLE E) models_available
    (VOSK_AVAILABLE E && PYDUB_AVAILABLE E && any_values models_available).

(** Some character of the string is not white space. *)
Fixpoint has_content (s : string) : bool :=
  match s with
  | EmptyString => false
  | String c t => negb (Py.isspace c) || has_content t
  end.

(** ** The HTTP layer ([backend/server.py])

    The endpoints that call the pipeline, with the history collection
    they write and read.  A request handler returns a value, raises an
    [HTTPException], or lets another exception escape.  The collection
    [db.transcriptions] is a map from [_id] to document ([_id] is unique
    in a collection).  What the request reads from its surroundings
    (the identifier and the time it draws, the outcome of the driver
    calls) is in [ServerExternals]. *)

Record HTTPException : Type := mkHTTPException {
  status_code : N;
  detail : string
}.

Inductive outcome (A : Type) : Type :=
| Returned (a : A)
| HTTPError (e : HTTPException)
| Unhandled (msg : string).
Arguments Returned {A} a.
Arguments HTTPError {A} e.
Arguments Unhandled {A} msg.

Module Upload.
(** The [UploadFile] of a request; [read] is what [await file.read()]
    gives. *)
Record t : Type := mk {
  filename : string;
  content_type : option string;
  size : option N;
  read : res (list Byte.byte)
}.
End Upload.

Module Response.
(** [TranscriptionResponse] *)
Record t : Type := mk {
  id : string;
  filename : string;
  language : string;
  text : string;
  duration : option float;
  fileSize : N;
  createdAt : Z;
  success : bool;
  error : option string
}.
End Response.

Module History.
(** [TranscriptionHistory] *)
Record t : Type := mk {
  id : string;
  fileName : string;
  language : string;
  text : string;
  duration : option float;
  fileSize : N;
  createdAt : Z
}.
End History.

Module Doc.
(** The document [transcription_data] that is stored. *)
Record t : Type := mk {
  _id : string;
  fileName : string;
  language : string;
  text : string;
  fileSize : N;
  createdAt : Z;
  success : bool;
  error : option string
}.
End Doc.

Record ServerExternals : Type := {
  (** [Path(name).suffix] *)
  path_suffix : string -> string;
  (** [str(uuid.uuid4())] *)
  uuid4 : string;
  (** [datetime.utcnow()] *)
  utcnow : Z;
  (** [tmp_file.write(content); tmp_file.flush()]: [Some msg] when it raises *)
  write_error : string -> list Byte.byte -> option string;
  (** the driver calls: [Some msg] when the call raises for a reason of
      its own (no connection, ...) *)
  insert_one_error : option string;
  find_one_error : option string;
  delete_one_error : option string;
  (** the message of the driver's duplicate key error *)
  duplicate_key_error : string -> string
}.

Record ServerWorld (E : Externals) : Type := mkServerWorld {
  core : World E;
  transcriptions : gmap string Doc.t
}.
Arguments mkServerWorld {E} core transcriptions.
Arguments core {E} s.
Arguments transcriptions {E} s.

Definition SUPPORTED_FORMATS : list (string * list string) :=
  [ ("audio/mpeg", [".mp3"]); ("audio/wav", [".wav"]); ("audio/x-wav", [".wav"]);
    ("audio/ogg", [".ogg"]); ("audio/mp4", [".m4a"]); ("audio/x-m4a", [".m4a"]);
    ("audio/flac", [".flac"]) ].

Definition MAX_FILE_SIZE : N := 2 * 1024 * 1024 * 1024.

(** [repr] of a list of strings without quotes or escapes in them. *)
Definition repr_list (l : list string) : string :=
  "[" ++ Py.join ", " (map (fun s => "'" ++ s ++ "'") l) ++ "]".

(** [str] of an optional string. *)
Definition str_option (o : option string) : string :=
  match o with
  | Some s => s
  | None => "None"
  end.

(** [file.size and file.size > MAX_FILE_SIZE] *)
Definition too_large (size : option N) : bool :=
  match size with
  | Some n => negb (n =? 0)%N && (MAX_FILE_SIZE <? n)%N
  | None => false
  end.

(** [file.content_type in SUPPORTED_FORMATS] *)
Definition supported_format (content_type : option string) : bool :=
  match content_type with
  | Some t => existsb (String.eqb t) (map fst SUPPORTED_FORMATS)
  | None => false
  end.

(** [list(available_languages.keys())]: the keys in the order in which
    [get_available_languages] meets them in [MODEL_PATHS]. *)
Definition available_keys (available_languages : gmap string string) : list string :=
  List.filter (fun lang => bool_decide (is_Some (available_languages !! lang)))
    ["en"; "ru"; "kz"].

(** The truth value of a Python value. *)
Definition pyval_truthy (v : pyval) : bool :=
  match v with
  | VNone => false
  | VBool b => b
  | VInt n => negb (n =? 0)%Z
  | VFloat f => negb (PrimFloat.eqb f 0%float)
  | VStr s => Py.truthy s
  end.

(** The entries of a result as the response model types them:
    [result.get("language", language)], [result.get("text", "")],
    [result.get("success", False)] and [result.get("error")].  The
    results of [transcribe_audio] carry values of these types; [None]
    stands for any other value, on which the construction of the
    response raises. *)
Definition typed_entries (result : gmap string pyval) (language : string)
  : option (string * string * bool * option string) :=
  match default (VStr language) (result !! "language"),
        default (VStr "") (result !! "text"),
        default (VBool false) (result !! "success"),
        default VNone (result !! "error") with
  | VStr l, VStr t, VBool b, VNone => Some (l, t, b, None)
  | VStr l, VStr t, VBool b, VStr e => Some (l, t, b, Some e)
  | _, _, _, _ => None
  end.

(** [await db.transcriptions.insert_one(document)] *)
Definition insert_one (S : ServerExternals) (document : Doc.t)
  (collection : gmap string Doc.t) : res (gmap string Doc.t) :=
  match insert_one_error S with
  | Some msg => Raise msg
  | None =>
      match collection !! Doc._id document with
      | Some _ => Raise (duplicate_key_error S (Doc._id document))
      | None => Ok (<[Doc._id document := document]> collection)
      end
  end.

(** The body of the [try] of [transcribe_audio_file]. *)
Definition transcribe_attempt (E : Externals) (S : ServerExternals) (upload : Upload.t)
  (language tmp_path : string) (w : ServerWorld E) : res Response.t * ServerWorld E :=
  match Upload.read upload with
  | Raise e => (Raise e, w)
  | Ok content =>
      match write_error S tmp_path content with
      | Some e => (Raise e, w)
      | None =>
          let (result, c) := transcribe_audio E tmp_path language (core w) in
          let w := mkServerWorld c (transcriptions w) in
          let transcription_id := uuid4 S in
          match typed_entries result language with
          | None => (Raise "validation error for TranscriptionResponse", w)
          | Some (l, t, b, e) =>
              let transcription_data :=
                Doc.mk transcription_id (Upload.filename upload) l t
                  (N.of_nat (length content)) (utcnow S) b e in
              let response :=
                Response.mk transcription_id (Upload.filename upload) l t None
                  (N.of_nat (length content)) (Doc.createdAt transcription_data) b e in
              if pyval_truthy (default VNone (result !! "success")) then
                match insert_one S transcription_data (transcriptions w) with
                | Raise msg => (Raise msg, w)
                | Ok collection => (Ok response, mkServerWorld (core w) collection)
                end
              else (Ok response, w)
          end
      end
  end.

(** [POST /api/transcribe] *)
Definition transcribe_audio_file (E : Externals) (S : ServerExternals) (upload : Upload.t)
  (language : string) (w : ServerWorld E) : outcome Response.t * ServerWorld E :=
  if too_large (Upload.size upload) then
    (HTTPError
       (mkHTTPException 413
          ("File size (" ++ pretty (default 0%N (Upload.size upload))
           ++ " bytes) exceeds maximum allowed size (" ++ pretty MAX_FILE_SIZE
           ++ " bytes)")), w)
  else if negb (supported_format (Upload.content_type upload)) then
    (HTTPError
       (mkHTTPException 400
          ("Unsupported file format: " ++ str_option (Upload.content_type upload)
           ++ ". Supported formats: " ++ repr_list (map fst SUPPORTED_FORMATS))), w)
  else
    let available_languages := get_available_languages E (core w) in
    if negb (bool_decide (is_Some (available_languages !! language)))
       && negb (String.eqb language "auto") then
      (HTTPError
         (mkHTTPException 400
            ("Unsupported language: " ++ language ++ ". Available languages: "
             ++ repr_list (available_keys available_languages))), w)
    else
      match NamedTemporaryFile E (fs (core w)) (path_suffix S (Upload.filename upload)) with
      | Raise e => (Unhandled e, w)
      | Ok tmp_path =>
          let w :=
            mkServerWorld (set_fs (core w) (<[tmp_path := EmptyFile]> (fs (core w))))
              (transcriptions w) in
          let (attempt, w) := transcribe_attempt E S upload language tmp_path w in
          match cleanup E tmp_path (core w) with
          | Raise e =>
              (* raised in the [finally] clause: it replaces the outcome *)
              (Unhandled e, w)
          | Ok c =>
              (match attempt with
               | Ok response => Returned response
               | Raise e => HTTPError (mkHTTPException 500 ("Transcription failed: " ++ e))
               end, mkServerWorld c (transcriptions w))
          end
      end.

(** [GET /api/transcriptions/{transcription_id}] *)
Definition get_transcription (E : Externals) (S : ServerExternals)
  (transcription_id : string) (w : ServerWorld E) : outcome History.t :=
  match find_one_error S with
  | Some _ => HTTPError (mkHTTPException 500 "Failed to fetch transcription")
  | None =>
      match transcriptions w !! transcription_id with
      | None => HTTPError (mkHTTPException 404 "Transcription not found")
      | Some transcription =>
          Returned
            (History.mk (Doc._id transcription) (Doc.fileName transcription)
               (Doc.language transcription) (Doc.text transcription) None
               (Doc.fileSize transcription) (Doc.createdAt transcription))
      end
  end.

(** [DELETE /api/transcriptions/{transcription_id}] *)
Definition delete_transcription (E : Externals) (S : ServerExternals)
  (transcription_id : string) (w : ServerWorld E)
  : outcome (gmap string pyval) * ServerWorld E :=
  match delete_one_error S with
  | Some _ => (HTTPError (mkHTTPException 500 "Failed to delete transcription"), w)
  | None =>
      match transcriptions w !! transcription_id with
      | None => (HTTPError (mkHTTPException 404 "Transcription not found"), w)
      | Some _ =>
          (Returned {[ "message" := VStr "Transcription deleted successfully" ]},
           mkServerWorld (core w) (delete transcription_id (transcriptions w)))
      end
  end.

(** The response of [GET /api/health]. *)
Record HealthResponse : Type := mkHealthResponse {
  status : string;
  health_vosk_available : bool;
  health_models_available : gmap string bool;
  available_languages : gmap string string;
  max_file_size : N;
  supported_formats : list string
}.

Definition health_check_endpoint (E : Externals) (w : ServerWorld E) : HealthResponse :=
  let health_status := health_check E (core w) in
  let available_languages := get_available_languages E (core w) in
  mkHealthResponse
    (if ready health_status then "healthy" else "limited")
    (vosk_available health_status)
    (models_available health_status)
    available_languages
    MAX_FILE_SIZE
    (map fst SUPPORTED_FORMATS).

(** A request environment in which nothing fails, and a request. *)
Module DemoServer.

Definition externals : ServerExternals := {|
  path_suffix := fun _ => ".mp3";
  uuid4 := "3f2b8c1e-6d4a-4e0b-9a57-1c2d3e4f5a6b";
  utcnow := 1700000000;
  write_error := fun _ _ => None;
  insert_one_error := None;
  find_one_error := None;
  delete_one_error := None;
  duplicate_key_error := fun key => "E11000 duplicate key error: " ++ key
|}.

Definition upload : Upload.t :=
  Upload.mk "talk.mp3" (Some "audio/mpeg") (Some 4%N)
    (Ok [Byte.x49; Byte.x44; Byte.x33; Byte.x04]).

Definition text_upload : Upload.t :=
  Upload.mk "fake_audio.txt" (Some "text/plain") (Some 25%N) (Ok []).


Definition world_en : ServerWorld Demo.engine := mkServerWorld Demo.world_en ∅.

Definition world_empty : ServerWorld Demo.engine := mkServerWorld Demo.world_empty ∅.

End DemoServer.

(** The request passes the three checks of [transcribe_audio_file]. *)
Definition accepted (E : Externals) (upload : Upload.t) (language : string)
  (w : ServerWorld E) : Prop :=
  too_large (Upload.size upload) = false /\
  supported_format (Upload.content_type upload) = true /\
  (is_Some (get_available_languages E (core w) !! language) \/ language = "auto").



(** ** The test client ([backend_test.py]) *)

(** [s.split(sep, 1)] for a separator of one character. *)
Fixpoint split_once (s : string) (sep : ascii) : list string :=
  match s with
  | EmptyString => [EmptyString]
  | String c t =>
      if Ascii.eqb c sep then [EmptyString; t]
      else match split_once t sep with
           | x :: rest => String c x :: rest
           | [] => [String c EmptyString]
           end
  end.

(** [get_backend_url]; [frontend_env] is the list of the lines of
    "/app/frontend/.env" when that file exists. *)
Definition get_backend_url (frontend_env : option (list string)) : res string :=
  match frontend_env with
  | Some lines =>
      match List.find (String.prefix "REACT_APP_BACKEND_URL=") lines with
      | Some line =>
          match nth_error (split_once line "=") 1 with
          | Some value => Ok (Py.strip value)
          | None => Raise "list index out of range"
          end
      | None => Ok "http://localhost:8001"
      end
  | None => Ok "http://localhost:8001"
  end.

(** * Properties *)

(** ** Strings *)

Section CaseMapping.




End CaseMapping.



Lemma split_go_nonempty (sep s : string) :
  forall skip, Py.split_go sep skip s <> [].
Proof.
  induction s as [|c t IH]; intros skip; cbn [Py.split_go].
  - discriminate.
  - destruct skip; [|apply IH].
    destruct (String.prefix sep (String c t)); [discriminate|].
    destruct (Py.split_go sep 0 t); discriminate.
Qed.


(** A non-empty text gives a non-empty text after the capitalisation of
    its segments. *)
Lemma joined_truthy (s : string) :
  Py.truthy s = true ->
  Py.truthy (Py.join ". " (map Py.capitalize (Py.split s ". "))) = true.
Proof.
  destruct s as [|c t]; [discriminate|]. intros _.
  unfold Py.split. cbn [Py.split_go].
  destruct (String.prefix ". " (String c t)).
  - pose proof (split_go_nonempty ". " t (String.length ". " - 1)) as Hne.
    destruct (Py.split_go ". " (String.length ". " - 1) t) as [|x xs];
      [contradiction|reflexivity].
  - pose proof (split_go_nonempty ". " t 0) as Hne.
    destruct (Py.split_go ". " 0 t) as [|x xs]; [contradiction|].
    destruct xs; reflexivity.
Qed.




(** ** The language table *)

Lemma vosk_lang_of_unknown (language : string) :
  language <> "en" -> language <> "ru" -> language <> "kz" -> language <> "auto" ->
  vosk_lang_of language = "en".
Proof.
  intros Hen Hru Hkz Hauto. unfold vosk_lang_of, lang_map.
  rewrite !lookup_insert_ne by congruence.
  rewrite lookup_singleton_ne by congruence. reflexivity.
Qed.

Lemma vosk_lang_of_enumerated (language : string) :
  vosk_lang_of language = "en" \/ vosk_lang_of language = "ru" \/
  vosk_lang_of language = "kz".
Proof.
  destruct (decide (language = "en")) as [->|Hen]; [left; reflexivity|].
  destruct (decide (language = "ru")) as [->|Hru]; [right; left; reflexivity|].
  destruct (decide (language = "kz")) as [->|Hkz]; [right; right; reflexivity|].
  destruct (decide (language = "auto")) as [->|Hauto]; [left; reflexivity|].
  left. now apply vosk_lang_of_unknown.
Qed.

(** ** The model registry *)

Lemma get_model_fs (E : Externals) (lang : string) (w : World E) :
  fs (snd (get_model E lang w)) = fs w.
Proof. unfold get_model. repeat case_match; reflexivity. Qed.

Lemma get_recognizer_fs (E : Externals) (lang : string) (rate : Z) (w : World E) :
  fs (snd (get_recognizer E lang rate w)) = fs w.
Proof.
  unfold get_recognizer. pose proof (get_model_fs E lang w) as Hfs.
  destruct (get_model E lang w) as [[model|] w']; cbn [snd] in Hfs;
    repeat case_match; exact Hfs.
Qed.

(** C4, as amended.  When the location configured for a language is not
    on disk (or no location is configured), [get_model] finds no model
    if the language is not in the cache, and leaves the state as it is;
    if the language is in the cache, the cached model is returned all
    the same. *)
Theorem get_model_missing_location (E : Externals) (lang : string) (w : World E) :
  model_location_missing w lang ->
  (_model_cache w !! lang = None -> get_model E lang w = (None, w)) /\
  (forall model, VOSK_AVAILABLE E = true -> _model_cache w !! lang = Some model ->
                 get_model E lang w = (Some model, w)).
Proof.
  intros Hmissing. unfold get_model. split.
  - intros ->. unfold model_location_missing in Hmissing.
    destruct (VOSK_AVAILABLE E); [|reflexivity]. cbn [negb].
    destruct (MODEL_PATHS E !! lang) as [model_path|]; [|reflexivity].
    unfold path_exists. rewrite Hmissing.
    rewrite bool_decide_eq_false_2; [reflexivity|].
    intros [x Hx]. discriminate.
  - intros model -> ->. reflexivity.
Qed.

Lemma get_model_missing_location_witness :
  get_model Demo.engine "en" Demo.world_empty = (None, Demo.world_empty).
Proof.
  apply (get_model_missing_location Demo.engine "en" Demo.world_empty);
    vm_compute; reflexivity.
Defined.

(** C4, as stated, fails: a cached model is returned although its
    location is no longer on disk. *)
Lemma get_model_cached_without_location :
  model_location_missing Demo.world_stale "en" /\
  get_model Demo.engine "en" Demo.world_stale = (Some Demo.en_path, Demo.world_stale).
Proof. split; vm_compute; reflexivity. Qed.

(** ** The recognition loop *)

Lemma collect_nonblank (result_text acc : list string) (result : gmap string pyval) :
  Forall nonblank result_text ->
  collect result_text result = Ok acc ->
  Forall nonblank acc.
Proof.
  intros Hinv. unfold collect.
  destruct (default (VStr "") (result !! "text")) as [| | | |text]; try discriminate.
  destruct (Py.truthy (Py.strip text)) eqn:Htext; intros [= <-]; [|exact Hinv].
  apply Forall_app. split; [exact Hinv|]. constructor; [exact Htext|constructor].
Qed.

Lemma collect_blank (result_text : list string) (result : gmap string pyval) :
  blank_result result -> collect result_text result = Ok result_text.
Proof.
  unfold blank_result, collect.
  destruct (default (VStr "") (result !! "text")); try contradiction.
  now intros ->.
Qed.

Lemma feed_nonblank (E : Externals) (recognizer recognizer' : KaldiRecognizer E)
  (result_text acc : list string) (data : list Byte.byte) :
  Forall nonblank result_text ->
  feed E recognizer result_text data = Ok (recognizer', acc) ->
  Forall nonblank acc.
Proof.
  intros Hinv. unfold feed.
  destruct (AcceptWaveform E recognizer data) as [[[] r1]|]; try discriminate.
  - destruct (Result E r1) as [[result r2]|]; try discriminate.
    destruct (collect result_text result) as [acc'|] eqn:Hcollect; try discriminate.
    intros [= _ <-]. exact (collect_nonblank _ _ _ Hinv Hcollect).
  - now intros [= _ <-].
Qed.

Lemma feed_loop_nonblank (E : Externals) (reads : list (list frame)) :
  forall (recognizer recognizer' : KaldiRecognizer E) (result_text acc : list string),
    Forall nonblank result_text ->
    feed_loop E recognizer result_text reads = Ok (recognizer', acc) ->
    Forall nonblank acc.
Proof.
  induction reads as [|chunk reads IH]; intros recognizer recognizer' result_text acc Hinv;
    cbn [feed_loop].
  - now intros [= _ <-].
  - destruct (length (concat chunk) =? 0)%nat; [now intros [= _ <-]|].
    destruct (feed E recognizer result_text (concat chunk)) as [[r1 acc1]|] eqn:Hfeed;
      try discriminate.
    apply IH. exact (feed_nonblank _ _ _ _ _ _ Hinv Hfeed).
Qed.

Lemma finalize_nonblank (E : Externals) (recognizer : KaldiRecognizer E)
  (result_text acc : list string) :
  Forall nonblank result_text ->
  finalize E recognizer result_text = Ok acc ->
  Forall nonblank acc.
Proof.
  intros Hinv. unfold finalize.
  destruct (FinalResult E recognizer) as [[final_result r1]|]; try discriminate.
  apply collect_nonblank. exact Hinv.
Qed.



(** ** The orchestrator *)

Lemma success_result_shape (final_text vosk_lang : string) :
  success_shape (success_result final_text vosk_lang) vosk_lang.
Proof. unfold success_shape, success_result. repeat split; eauto. Qed.

Lemma failure_result_shape (error : string) :
  failure_shape (failure_result error).
Proof. unfold failure_shape, failure_result. repeat split; eauto. Qed.

(** Every exit of [transcribe_audio] returns one of the two dictionaries. *)
Lemma transcribe_audio_cases (E : Externals) (file_path language : string) (w : World E) :
  (exists final_text,
      fst (transcribe_audio E file_path language w)
      = success_result final_text (vosk_lang_of language)) \/
  (exists error,
      fst (transcribe_audio E file_path language w) = failure_result error).
Proof.
  unfold transcribe_audio. repeat case_match; cbn [fst]; eauto.
Qed.

(** C5, as amended.  Every result of [transcribe_audio] has one of two
    shapes.  A success has [success = True], a text, the language that
    was resolved, the confidence 0.8 and no error entry.  A failure has
    [success = False], the empty text and an error message, and has
    neither a language nor a confidence entry. *)
Theorem transcribe_audio_result_shapes (E : Externals) (file_path language : string)
  (w : World E) :
  success_shape (fst (transcribe_audio E file_path language w)) (vosk_lang_of language) \/
  failure_shape (fst (transcribe_audio E file_path language w)).
Proof.
  destruct (transcribe_audio_cases E file_path language w) as [[t ->]|[e ->]].
  - left. apply success_result_shape.
  - right. apply failure_result_shape.
Qed.

(** C5, as stated, fails: a failure result has no language entry. *)
Lemma failure_result_has_no_language :
  fst (transcribe_audio Demo.engine "/uploads/a.mp3" "en" Demo.world_empty)
  = failure_result "Failed to load speech recognition model for en" /\
  ~ TranscriptionResult_shape
      (fst (transcribe_audio Demo.engine "/uploads/a.mp3" "en" Demo.world_empty)).
Proof.
  split; [vm_compute; reflexivity|].
  intros (_ & _ & [l Hl] & _). vm_compute in Hl. discriminate.
Qed.

(** C6.  "auto" resolves to "en", as "en" itself does, and a call with
    "auto" returns what the call with "en" returns on the same input in
    the same state: the same result, hence the same text, and the same
    state afterwards. *)
Theorem auto_is_english :
  vosk_lang_of "auto" = "en" /\
  vosk_lang_of "en" = "en" /\
  (forall (E : Externals) (file_path : string) (w : World E),
      transcribe_audio E file_path "auto" w = transcribe_audio E file_path "en" w) /\
  (forall (E : Externals) (file_path : string) (w : World E),
      fst (transcribe_audio E file_path "auto" w) !! "text"
      = fst (transcribe_audio E file_path "en" w) !! "text").
Proof.
  assert (Hauto : vosk_lang_of "auto" = "en") by (vm_compute; reflexivity).
  assert (Hen : vosk_lang_of "en" = "en") by (vm_compute; reflexivity).
  assert (Hsame : forall (E : Externals) (file_path : string) (w : World E),
             transcribe_audio E file_path "auto" w = transcribe_audio E file_path "en" w).
  { intros E file_path w. unfold transcribe_audio. rewrite Hauto, Hen. reflexivity. }
  split; [exact Hauto|]. split; [exact Hen|]. split; [exact Hsame|].
  intros E file_path w. now rewrite Hsame.
Qed.




(** C10.  A result with [success = True] carries as its language the
    code that was resolved, which is one of "en", "ru" and "kz" and so
    never "auto", and the confidence 0.8. *)
Theorem success_carries_resolved_language (E : Externals) (file_path language : string)
  (w : World E) :
  fst (transcribe_audio E file_path language w) !! "success" = Some (VBool true) ->
  fst (transcribe_audio E file_path language w) !! "language"
  = Some (VStr (vosk_lang_of language)) /\
  vosk_lang_of language <> "auto" /\
  fst (transcribe_audio E file_path language w) !! "confidence"
  = Some (VFloat confidence_0_8).
Proof.
  destruct (transcribe_audio_cases E file_path language w) as [[t ->]|[e ->]].
  - intros _.
    destruct (success_result_shape t (vosk_lang_of language))
      as (_ & _ & Hlang & Hconf & _).
    split; [exact Hlang|]. split; [|exact Hconf].
    destruct (vosk_lang_of_enumerated language) as [Hl | [Hl | Hl]];
      rewrite Hl; discriminate.
  - destruct (failure_result_shape e) as (Hfalse & _).
    rewrite Hfalse. discriminate.
Qed.

Lemma success_carries_resolved_language_witness :
  fst (transcribe_audio Demo.engine "/uploads/a.mp3" "auto" Demo.world_en) !! "language"
  = Some (VStr (vosk_lang_of "auto")) /\
  vosk_lang_of "auto" <> "auto" /\
  fst (transcribe_audio Demo.engine "/uploads/a.mp3" "auto" Demo.world_en) !! "confidence"
  = Some (VFloat confidence_0_8).
Proof.
  apply (success_carries_resolved_language
           Demo.engine "/uploads/a.mp3" "auto" Demo.world_en).
  vm_compute. reflexivity.
Defined.

(** ** The temporary WAV file *)

Lemma cleanup_removes (E : Externals) (wav_path : string) (w w' : World E) :
  cleanup E wav_path w = Ok w' -> fs w' !! wav_path = None.
Proof.
  unfold cleanup, path_exists.
  destruct (bool_decide (is_Some (fs w !! wav_path))) eqn:Hexists.
  - destruct (unlink_error E wav_path); [discriminate|].
    intros [= <-]. cbn [fs set_fs]. apply lookup_delete_eq.
  - intros [= <-]. apply bool_decide_eq_false_1 in Hexists.
    destruct (fs w !! wav_path) eqn:Hlookup; [|reflexivity].
    exfalso. apply Hexists. eauto.
Qed.

(** X8.  Once the recogniser has been obtained, the [finally] clause removes
    the file, whatever the recognition does, unless [os.unlink] itself
    raises. *)
Lemma transcribe_audio_removes_wav_after_recognition (E : Externals)
  (file_path language wav_path : string) (w w1 w2 : World E)
  (recognizer : KaldiRecognizer E) :
  VOSK_AVAILABLE E = true ->
  convert_audio_to_wav E file_path 16000 w = (Some wav_path, w1) ->
  Py.truthy wav_path = true ->
  get_recognizer E (vosk_lang_of language) 16000 w1 = (Some recognizer, w2) ->
  unlink_error E wav_path = None ->
  fs (snd (transcribe_audio E file_path language w)) !! wav_path = None.
Proof.
  intros Hvosk Hconvert Hname Hrecognizer Hunlink.
  unfold transcribe_audio. rewrite Hvosk, Hconvert, Hname, Hrecognizer. cbn [negb].
  destruct (cleanup E wav_path w2) as [w3|msg] eqn:Hcleanup.
  - apply cleanup_removes in Hcleanup.
    destruct (recognize_file E recognizer (fs w2) wav_path); exact Hcleanup.
  - unfold cleanup in Hcleanup. rewrite Hunlink in Hcleanup.
    destruct (path_exists w2 wav_path); discriminate.
Qed.

(** X15.  The normaliser itself leaves the file it created when the export
    raises. *)
Lemma convert_audio_to_wav_keeps_file_on_export_error (E : Externals)
  (file_path wav_path msg : string) (sample_rate : Z) (w : World E)
  (a1 a2 a3 : AudioSegment E) :
  PYDUB_AVAILABLE E = true ->
  from_file E file_path = Ok a1 ->
  set_frame_rate E a1 sample_rate = Ok a2 ->
  set_channels E a2 1 = Ok a3 ->
  NamedTemporaryFile E (fs w) ".wav" = Ok wav_path ->
  export E a3 = Raise msg ->
  fst (convert_audio_to_wav E file_path sample_rate w) = None /\
  fs (snd (convert_audio_to_wav E file_path sample_rate w)) !! wav_path = Some EmptyFile.
Proof.
  intros Hpydub Hfrom Hrate Hchannels Htmp Hexport.
  unfold convert_audio_to_wav.
  rewrite Hpydub, Hfrom, Hrate, Hchannels, Htmp, Hexport. cbn [negb fst snd fs set_fs].
  split; [reflexivity|apply lookup_insert_eq].
Qed.

(** X16.  When the recogniser cannot be obtained, the function returns before
    the [try ... finally]: the file that the normaliser wrote is still
    there. *)
Lemma transcribe_audio_keeps_wav_without_recognizer (E : Externals)
  (file_path language wav_path : string) (w w1 w2 : World E) (content : file) :
  VOSK_AVAILABLE E = true ->
  convert_audio_to_wav E file_path 16000 w = (Some wav_path, w1) ->
  Py.truthy wav_path = true ->
  fs w1 !! wav_path = Some content ->
  get_recognizer E (vosk_lang_of language) 16000 w1 = (None, w2) ->
  fst (transcribe_audio E file_path language w)
  = failure_result
      ("Failed to load speech recognition model for " ++ vosk_lang_of language) /\
  fs (snd (transcribe_audio E file_path language w)) !! wav_path = Some content.
Proof.
  intros Hvosk Hconvert Hname Hcontent Hrecognizer.
  pose proof (get_recognizer_fs E (vosk_lang_of language) 16000 w1) as Hfs.
  rewrite Hrecognizer in Hfs. cbn [snd] in Hfs.
  unfold transcribe_audio. rewrite Hvosk, Hconvert, Hname, Hrecognizer.
  cbn [negb fst snd]. rewrite Hfs. split; [reflexivity|exact Hcontent].
Qed.

(** C1 fails on the code.  The audio is converted, which creates the
    temporary file; the recogniser cannot be created because the model
    is not installed; [transcribe_audio] returns its failure result from
    before the [try ... finally] that removes the file, and the file is
    still on disk. *)
Theorem temporary_wav_left_when_recognizer_fails :
  fs Demo.world_empty !! Demo.tmp_wav = None /\
  fst (convert_audio_to_wav Demo.engine "/uploads/a.mp3" 16000 Demo.world_empty)
  = Some Demo.tmp_wav /\
  fst (transcribe_audio Demo.engine "/uploads/a.mp3" "en" Demo.world_empty)
  = failure_result "Failed to load speech recognition model for en" /\
  fs (snd (transcribe_audio Demo.engine "/uploads/a.mp3" "en" Demo.world_empty))
    !! Demo.tmp_wav
  = Some (WavFile [Demo.sample; Demo.sample; Demo.sample]).
Proof. repeat split; vm_compute; reflexivity. Qed.

(** ** The empty stream *)

(** C8.  When the converted file has no frame, so that the first read
    returns no byte, and the final result of the fresh recogniser has no
    text other than white space, [transcribe_audio] returns a success
    with the empty text and no error entry; the post-processor leaves
    the empty text empty. *)
Theorem empty_stream_gives_empty_text (E : Externals)
  (file_path language wav_path : string) (w w1 w2 : World E)
  (recognizer recognizer' : KaldiRecognizer E) (final_result : gmap string pyval) :
  VOSK_AVAILABLE E = true ->
  convert_audio_to_wav E file_path 16000 w = (Some wav_path, w1) ->
  Py.truthy wav_path = true ->
  fs w1 !! wav_path = Some (WavFile []) ->
  get_recognizer E (vosk_lang_of language) 16000 w1 = (Some recognizer, w2) ->
  FinalResult E recognizer = Ok (final_result, recognizer') ->
  blank_result final_result ->
  unlink_error E wav_path = None ->
  recognize_file E recognizer (fs w2) wav_path = Ok [] /\
  fst (transcribe_audio E file_path language w)
  = success_result "" (vosk_lang_of language) /\
  fst (transcribe_audio E file_path language w) !! "success" = Some (VBool true) /\
  fst (transcribe_audio E file_path language w) !! "text" = Some (VStr "") /\
  fst (transcribe_audio E file_path language w) !! "error" = None /\
  postProcess "" = "".
Proof.
  intros Hvosk Hconvert Hname Hwav Hrecognizer Hfinal Hblank Hunlink.
  assert (Hfs : fs w2 = fs w1).
  { pose proof (get_recognizer_fs E (vosk_lang_of language) 16000 w1) as H.
    now rewrite Hrecognizer in H. }
  assert (Hfile : recognize_file E recognizer (fs w2) wav_path = Ok []).
  { unfold recognize_file, wave_open. rewrite Hfs, Hwav.
    cbn [readframes_all readframes_go length feed_loop].
    unfold finalize. rewrite Hfinal. now apply collect_blank. }
  assert (Hresult : fst (transcribe_audio E file_path language w)
                    = success_result "" (vosk_lang_of language)).
  { unfold transcribe_audio.
    rewrite Hvosk, Hconvert, Hname, Hrecognizer, Hfile. cbn [negb].
    unfold cleanup, path_exists. rewrite Hfs, Hwav, Hunlink.
    rewrite bool_decide_eq_true_2 by eauto. reflexivity. }
  split; [exact Hfile|]. split; [exact Hresult|].
  rewrite Hresult. repeat split; reflexivity.
Qed.

Lemma empty_stream_gives_empty_text_witness :
  fst (transcribe_audio Demo.engine "/uploads/silence.ogg" "auto" Demo.world_en)
  = success_result "" "en" /\
  fst (transcribe_audio Demo.engine "/uploads/silence.ogg" "auto" Demo.world_en)
    !! "error" = None.
Proof.
  destruct (empty_stream_gives_empty_text
              Demo.engine "/uploads/silence.ogg" "auto" Demo.tmp_wav Demo.world_en
              (snd (convert_audio_to_wav Demo.engine "/uploads/silence.ogg" 16000
                      Demo.world_en))
              (snd (get_recognizer Demo.engine "en" 16000
                      (snd (convert_audio_to_wav Demo.engine "/uploads/silence.ogg" 16000
                              Demo.world_en))))
              O O {[ "text" := VStr "" ]})
    as (_ & Hresult & _ & _ & Herror & _);
    try (vm_compute; reflexivity).
  split; [exact Hresult|exact Herror].
Defined.

(** ** Further facts about the model *)

(** The slices that [readframes] returns are the frames of the file, in
    order: the bound on their number loses nothing. *)
Lemma readframes_go_concat (fuel n : nat) :
  forall frames : list frame,
    (0 < n)%nat -> (length frames <= fuel)%nat ->
    concat (readframes_go fuel n frames) = frames.
Proof.
  induction fuel as [|fuel IH]; intros frames Hn Hlen.
  - destruct frames; [reflexivity|cbn in Hlen; lia].
  - destruct frames as [|x l]; [reflexivity|].
    cbn [readframes_go concat]. rewrite IH.
    + apply take_drop.
    + exact Hn.
    + rewrite length_drop. cbn [length] in *. lia.
Qed.

Lemma readframes_all_concat (frames : list frame) :
  concat (readframes_all 4000 frames) = frames.
Proof. apply readframes_go_concat; lia. Qed.

(** X4.  In a sequence of calls, a model that was returned once is returned
    again from the cache, without a second load. *)
Lemma get_model_again (E : Externals) (lang : string) (w w' : World E) (model : Model E) :
  get_model E lang w = (Some model, w') ->
  _model_cache w' !! lang = Some model /\ get_model E lang w' = (Some model, w').
Proof.
  unfold get_model.
  destruct (VOSK_AVAILABLE E); cbn [negb]; [|discriminate].
  destruct (_model_cache w !! lang) as [cached|] eqn:Hcache.
  - intros [= <- <-]. rewrite Hcache. split; reflexivity.
  - destruct (MODEL_PATHS E !! lang) as [model_path|]; [|discriminate].
    destruct (path_exists w model_path); cbn [negb]; [|discriminate].
    destruct (Model_new E model_path) as [loaded|]; [|discriminate].
    intros [= <- <-]. cbn [_model_cache set_cache].
    rewrite lookup_insert_eq. split; reflexivity.
Qed.

Example split_on_period_space :
  Py.split "a. . b.. c. " ". " = ["a"; ""; "b."; "c"; ""].
Proof. reflexivity. Qed.

Example strip_both_ends : Py.strip (String "009" " a b  ") = "a b".
Proof. reflexivity. Qed.

Example postProcess_keeps_final_period : postProcess "it works. really." = "It works. Really.".
Proof. reflexivity. Qed.

Example transcribe_audio_runs :
  fst (transcribe_audio Demo.engine "/uploads/a.mp3" "en" Demo.world_en)
  = success_result "Hello world." "en" /\
  fs (snd (transcribe_audio Demo.engine "/uploads/a.mp3" "en" Demo.world_en))
    !! Demo.tmp_wav = None /\
  _model_cache (snd (transcribe_audio Demo.engine "/uploads/a.mp3" "en" Demo.world_en))
    !! "en" = Some Demo.en_path.
Proof. repeat split; vm_compute; reflexivity. Qed.

Example transcribe_audio_without_vosk :
  fst (transcribe_audio Demo.engine_without_vosk "/uploads/a.mp3" "en" (mkWorld ∅ ∅))
  = failure_result "Vosk speech recognition is not available".
Proof. vm_compute; reflexivity. Qed.

(** ** Availability and health *)

Lemma MODEL_PATHS_keys (E : Externals) (lang model_path : string) :
  MODEL_PATHS E !! lang = Some model_path ->
  lang = "en" \/ lang = "ru" \/ lang = "kz".
Proof.
  unfold MODEL_PATHS. intros Hlookup.
  destruct (decide (lang = "en")) as [|Hen]; [tauto|].
  destruct (decide (lang = "ru")) as [|Hru]; [tauto|].
  destruct (decide (lang = "kz")) as [|Hkz]; [tauto|].
  rewrite !lookup_insert_ne in Hlookup by congruence.
  rewrite lookup_singleton_ne in Hlookup by congruence. discriminate.
Qed.

Lemma get_available_languages_lookup (E : Externals) (w : World E) (lang : string) :
  get_available_languages E w !! lang
  = MODEL_PATHS E !! lang ≫= (fun path =>
      if path_exists w path then Some (default lang (lang_names !! lang)) else None).
Proof.
  unfold get_available_languages.
  apply (map_fold_weak_ind (fun r m =>
    r !! lang = m !! lang ≫= (fun path =>
      if path_exists w path then Some (default lang (lang_names !! lang)) else None))).
  - rewrite !lookup_empty. reflexivity.
  - intros i path m r Hfresh IH.
    destruct (decide (i = lang)) as [->|Hne].
    + rewrite lookup_insert_eq. cbn.
      destruct (path_exists w path).
      * apply lookup_insert_eq.
      * rewrite IH, Hfresh. reflexivity.
    + rewrite (lookup_insert_ne m) by exact Hne.
      destruct (path_exists w path); [|exact IH].
      rewrite lookup_insert_ne by exact Hne. exact IH.
Qed.

Lemma models_available_lookup (E : Externals) (w : World E) (lang : string) :
  VOSK_AVAILABLE E = true ->
  models_available (health_check E w) !! lang
  = path_exists w <$> MODEL_PATHS E !! lang.
Proof.
  intros Hvosk. unfold health_check. rewrite Hvosk. cbn [models_available].
  apply (map_fold_weak_ind (fun r m => r !! lang = path_exists w <$> m !! lang)).
  - rewrite !lookup_empty. reflexivity.
  - intros i path m r Hfresh IH.
    destruct (decide (i = lang)) as [->|Hne].
    + rewrite !lookup_insert_eq. reflexivity.
    + rewrite !lookup_insert_ne by exact Hne. exact IH.
Qed.

Lemma any_values_true (d : gmap string bool) :
  any_values d = true <-> exists key, d !! key = Some true.
Proof.
  unfold any_values. rewrite existsb_exists. split.
  - intros (v & Hin & ->). apply in_map_iff in Hin as ([key v] & Hv & Hin).
    cbn in Hv. subst v. exists key.
    apply elem_of_map_to_list, list_elem_of_In. exact Hin.
  - intros [key Hkey]. exists true. split; [|reflexivity].
    apply in_map_iff. exists (key, true). split; [reflexivity|].
    apply list_elem_of_In, elem_of_map_to_list. exact Hkey.
Qed.

(** X1.  [get_available_languages] lists a language exactly when it is
    one of the three configured ones and its model location is on disk,
    under its display name; neither the cache nor the availability of
    the engine plays a part. *)
Theorem available_languages_are_installed_models (E : Externals) (w : World E)
  (lang name : string) :
  get_available_languages E w !! lang = Some name <->
  exists model_path,
    MODEL_PATHS E !! lang = Some model_path /\
    is_Some (fs w !! model_path) /\
    ((lang = "en" /\ name = "English") \/ (lang = "ru" /\ name = "Russian") \/
     (lang = "kz" /\ name = "Kazakh")).
Proof.
  rewrite get_available_languages_lookup. unfold path_exists. split.
  - destruct (MODEL_PATHS E !! lang) as [model_path|] eqn:Hpath; [|discriminate].
    cbn. case_bool_decide as Hexists; [|discriminate].
    intros [= <-]. exists model_path. split; [reflexivity|]. split; [exact Hexists|].
    destruct (MODEL_PATHS_keys E lang model_path Hpath) as [-> | [-> | ->]];
      [left|right; left|right; right]; split; reflexivity.
  - intros (model_path & -> & Hexists & Hname). cbn.
    rewrite bool_decide_eq_true_2 by exact Hexists.
    destruct Hname as [[-> ->] | [[-> ->] | [-> ->]]]; reflexivity.
Qed.

(** X2.  With the engine importable, [health_check] reports every
    configured language and no other, and reports a language as
    available exactly when [get_available_languages] lists it. *)
Theorem health_check_agrees_with_available_languages (E : Externals) (w : World E)
  (lang : string) :
  VOSK_AVAILABLE E = true ->
  (is_Some (models_available (health_check E w) !! lang) <->
   lang = "en" \/ lang = "ru" \/ lang = "kz") /\
  (models_available (health_check E w) !! lang = Some true <->
   is_Some (get_available_languages E w !! lang)).
Proof.
  intros Hvosk. rewrite (models_available_lookup E w lang Hvosk).
  rewrite get_available_languages_lookup. split.
  - split.
    + destruct (MODEL_PATHS E !! lang) as [model_path|] eqn:Hpath.
      * intros _. exact (MODEL_PATHS_keys E lang model_path Hpath).
      * intros [x Hx]. discriminate.
    + intros [-> | [-> | ->]]; cbn; eauto.
  - destruct (MODEL_PATHS E !! lang) as [model_path|]; cbn.
    + destruct (path_exists w model_path); split; intros H;
        try reflexivity; try discriminate; eauto.
      destruct H as [x Hx]. discriminate.
    + split; intros H; try discriminate. destruct H as [x Hx]. discriminate.
Qed.

Lemma health_check_agrees_with_available_languages_witness :
  (is_Some (models_available (health_check Demo.engine Demo.world_en) !! "ru") <->
   "ru" = "en" \/ "ru" = "ru" \/ "ru" = "kz") /\
  (models_available (health_check Demo.engine Demo.world_en) !! "ru" = Some true <->
   is_Some (get_available_languages Demo.engine Demo.world_en !! "ru")).
Proof.
  apply (health_check_agrees_with_available_languages Demo.engine Demo.world_en "ru").
  reflexivity.
Defined.

Lemma any_model_available_iff (E : Externals) (w : World E) :
  VOSK_AVAILABLE E = true ->
  any_values (models_available (health_check E w)) = true <->
  exists lang name, get_available_languages E w !! lang = Some name.
Proof.
  intros Hvosk. rewrite any_values_true. split.
  - intros [lang Hlang].
    rewrite (models_available_lookup E w lang Hvosk) in Hlang.
    pose proof (get_available_languages_lookup E w lang) as Hlookup.
    destruct (MODEL_PATHS E !! lang) as [model_path|]; [|discriminate].
    cbn in Hlang, Hlookup. injection Hlang as Hexists.
    rewrite Hexists in Hlookup. eauto.
  - intros (lang & name & Hlang). exists lang.
    rewrite (models_available_lookup E w lang Hvosk).
    rewrite get_available_languages_lookup in Hlang.
    destruct (MODEL_PATHS E !! lang) as [model_path|]; [|discriminate].
    cbn in Hlang |- *. destruct (path_exists w model_path); [reflexivity|discriminate].
Qed.

(** X3.  [health_check] answers ready exactly when the engine and the
    decoder are importable and [get_available_languages] lists at least
    one language. *)
Theorem health_check_ready_iff (E : Externals) (w : World E) :
  ready (health_check E w) = true <->
  VOSK_AVAILABLE E = true /\ PYDUB_AVAILABLE E = true /\
  exists lang name, get_available_languages E w !! lang = Some name.
Proof.
  change (ready (health_check E w))
    with (VOSK_AVAILABLE E && PYDUB_AVAILABLE E
          && any_values (models_available (health_check E w))).
  rewrite !andb_true_iff. split.
  - intros [[Hvosk Hpydub] Hmodels]. repeat split; try assumption.
    now apply any_model_available_iff.
  - intros (Hvosk & Hpydub & Hmodels). repeat split; try assumption.
    now apply any_model_available_iff.
Qed.

(** ** The effects of the registry and of the normaliser on the state *)

Lemma get_model_cache_other (E : Externals) (lang l : string) (w : World E) :
  l <> lang \/ is_Some (_model_cache w !! l) ->
  _model_cache (snd (get_model E lang w)) !! l = _model_cache w !! l.
Proof.
  intros Hl. unfold get_model.
  destruct (VOSK_AVAILABLE E); cbn [negb]; [|reflexivity].
  destruct (_model_cache w !! lang) as [cached|] eqn:Hcache; [reflexivity|].
  destruct (MODEL_PATHS E !! lang) as [model_path|]; [|reflexivity].
  destruct (path_exists w model_path); cbn [negb]; [|reflexivity].
  destruct (Model_new E model_path) as [model|]; [|reflexivity].
  cbn [snd _model_cache set_cache].
  apply lookup_insert_ne. intros <-.
  destruct Hl as [Hl|[x Hx]]; [congruence|]. rewrite Hcache in Hx. discriminate.
Qed.

Lemma get_recognizer_cache_other (E : Externals) (lang l : string) (rate : Z)
  (w : World E) :
  l <> lang \/ is_Some (_model_cache w !! l) ->
  _model_cache (snd (get_recognizer E lang rate w)) !! l = _model_cache w !! l.
Proof.
  intros Hl. unfold get_recognizer.
  pose proof (get_model_cache_other E lang l w Hl) as Hcache.
  destruct (get_model E lang w) as [[model|] w']; cbn [snd] in Hcache;
    repeat case_match; exact Hcache.
Qed.

(** What a successful conversion leaves behind. *)
Lemma convert_audio_to_wav_some (E : Externals) (file_path wav_path : string)
  (sample_rate : Z) (w w' : World E) :
  convert_audio_to_wav E file_path sample_rate w = (Some wav_path, w') ->
  NamedTemporaryFile E (fs w) ".wav" = Ok wav_path /\
  (exists frames, fs w' = <[wav_path := WavFile frames]> (fs w)) /\
  _model_cache w' = _model_cache w.
Proof.
  unfold convert_audio_to_wav.
  destruct (PYDUB_AVAILABLE E); cbn [negb]; [|discriminate].
  destruct (from_file E file_path) as [a1|]; [|discriminate].
  destruct (set_frame_rate E a1 sample_rate) as [a2|]; [|discriminate].
  destruct (set_channels E a2 1) as [a3|]; [|discriminate].
  destruct (NamedTemporaryFile E (fs w) ".wav") as [name|]; [|discriminate].
  destruct (export E a3) as [frames|]; [|discriminate].
  intros [= <- <-]. cbn [fs set_fs _model_cache].
  split; [reflexivity|]. split; [|reflexivity].
  exists frames. apply insert_insert_eq.
Qed.

Lemma convert_audio_to_wav_cache (E : Externals) (file_path : string)
  (sample_rate : Z) (w : World E) :
  _model_cache (snd (convert_audio_to_wav E file_path sample_rate w)) = _model_cache w.
Proof. unfold convert_audio_to_wav. repeat case_match; reflexivity. Qed.

Lemma convert_audio_to_wav_fs_other (E : Externals) (file_path path : string)
  (sample_rate : Z) (w : World E) :
  NamedTemporaryFile E (fs w) ".wav" <> Ok path ->
  fs (snd (convert_audio_to_wav E file_path sample_rate w)) !! path = fs w !! path.
Proof.
  intros Hpath. unfold convert_audio_to_wav.
  destruct (PYDUB_AVAILABLE E); cbn [negb]; [|reflexivity].
  destruct (from_file E file_path) as [a1|]; [|reflexivity].
  destruct (set_frame_rate E a1 sample_rate) as [a2|]; [|reflexivity].
  destruct (set_channels E a2 1) as [a3|]; [|reflexivity].
  destruct (NamedTemporaryFile E (fs w) ".wav") as [name|]; [|reflexivity].
  assert (Hne : name <> path) by congruence.
  destruct (export E a3) as [frames|]; cbn [snd fs set_fs];
    rewrite ?lookup_insert_ne by exact Hne; reflexivity.
Qed.

Lemma cleanup_cache (E : Externals) (wav_path : string) (w w' : World E) :
  cleanup E wav_path w = Ok w' -> _model_cache w' = _model_cache w.
Proof. unfold cleanup. repeat case_match; intros [= <-]; reflexivity. Qed.

Lemma cleanup_fs_other (E : Externals) (wav_path path : string) (w w' : World E) :
  wav_path <> path -> cleanup E wav_path w = Ok w' -> fs w' !! path = fs w !! path.
Proof.
  intros Hne. unfold cleanup. repeat case_match; intros [= <-]; [|reflexivity].
  cbn [fs set_fs]. apply lookup_delete_ne. exact Hne.
Qed.

(** The state after [transcribe_audio], by the stage that was reached. *)
Lemma transcribe_audio_state (E : Externals) (file_path language : string) (w : World E) :
  let w1 := snd (convert_audio_to_wav E file_path 16000 w) in
  let w2 := snd (get_recognizer E (vosk_lang_of language) 16000 w1) in
  snd (transcribe_audio E file_path language w) = w \/
  snd (transcribe_audio E file_path language w) = w1 \/
  snd (transcribe_audio E file_path language w) = w2 \/
  exists wav_path w3,
    fst (convert_audio_to_wav E file_path 16000 w) = Some wav_path /\
    cleanup E wav_path w2 = Ok w3 /\
    snd (transcribe_audio E file_path language w) = w3.
Proof.
  intros w1 w2. subst w1 w2. unfold transcribe_audio.
  destruct (VOSK_AVAILABLE E); cbn [negb]; [|left; reflexivity].
  destruct (convert_audio_to_wav E file_path 16000 w) as [[wav_path|] w1];
    cbn [fst snd]; [|right; left; reflexivity].
  destruct (Py.truthy wav_path); cbn [negb]; [|right; left; reflexivity].
  destruct (get_recognizer E (vosk_lang_of language) 16000 w1)
    as [[recognizer|] w2]; cbn [snd]; [|right; right; left; reflexivity].
  destruct (cleanup E wav_path w2) as [w3|msg] eqn:Hcleanup;
    [|right; right; left; reflexivity].
  right; right; right. exists wav_path, w3.
  split; [reflexivity|]. split; [exact Hcleanup|].
  destruct (recognize_file E recognizer (fs w2) wav_path); reflexivity.
Qed.

Lemma get_model_again_witness :
  _model_cache (snd (get_model Demo.engine "en" Demo.world_en)) !! "en"
  = Some Demo.en_path /\
  get_model Demo.engine "en" (snd (get_model Demo.engine "en" Demo.world_en))
  = (Some Demo.en_path, snd (get_model Demo.engine "en" Demo.world_en)).
Proof.
  apply (get_model_again Demo.engine "en" Demo.world_en). vm_compute. reflexivity.
Defined.

(** X5.  [get_model] only loads what [get_available_languages] lists: a model
    that did not come from the cache belongs to a listed language, and
    is in the cache afterwards. *)
Theorem get_model_loads_listed_languages (E : Externals) (lang : string) (w : World E)
  (model : Model E) :
  _model_cache w !! lang = None ->
  fst (get_model E lang w) = Some model ->
  is_Some (get_available_languages E w !! lang) /\
  _model_cache (snd (get_model E lang w)) !! lang = Some model.
Proof.
  intros Hcache. rewrite get_available_languages_lookup. unfold get_model.
  destruct (VOSK_AVAILABLE E); cbn [negb]; [|discriminate].
  rewrite Hcache.
  destruct (MODEL_PATHS E !! lang) as [model_path|]; [|discriminate]. cbn.
  destruct (path_exists w model_path); cbn [negb]; [|discriminate].
  destruct (Model_new E model_path) as [loaded|]; [|discriminate].
  cbn [fst snd _model_cache set_cache]. intros [= <-].
  split; [eauto|apply lookup_insert_eq].
Qed.

Lemma get_model_loads_listed_languages_witness :
  is_Some (get_available_languages Demo.engine Demo.world_en !! "en") /\
  _model_cache (snd (get_model Demo.engine "en" Demo.world_en)) !! "en"
  = Some Demo.en_path.
Proof.
  apply (get_model_loads_listed_languages Demo.engine "en" Demo.world_en);
    vm_compute; reflexivity.
Defined.

(** X6.  A call of [transcribe_audio] changes at most one entry of the model
    cache: the one of the resolved language, and only if that language
    was not cached.  No model is evicted or replaced. *)
Theorem transcribe_audio_keeps_cached_models (E : Externals)
  (file_path language l : string) (w : World E) :
  l <> vosk_lang_of language \/ is_Some (_model_cache w !! l) ->
  _model_cache (snd (transcribe_audio E file_path language w)) !! l
  = _model_cache w !! l.
Proof.
  intros Hl.
  pose proof (convert_audio_to_wav_cache E file_path 16000 w) as Hconvert.
  assert (Hrecognizer :
            _model_cache
              (snd (get_recognizer E (vosk_lang_of language) 16000
                      (snd (convert_audio_to_wav E file_path 16000 w)))) !! l
            = _model_cache w !! l).
  { rewrite get_recognizer_cache_other by (rewrite Hconvert; exact Hl).
    now rewrite Hconvert. }
  destruct (transcribe_audio_state E file_path language w)
    as [-> | [-> | [-> | (wav_path & w3 & _ & Hcleanup & ->)]]].
  - reflexivity.
  - now rewrite Hconvert.
  - exact Hrecognizer.
  - rewrite (cleanup_cache E wav_path _ _ Hcleanup). exact Hrecognizer.
Qed.

Lemma transcribe_audio_keeps_cached_models_witness :
  _model_cache (snd (transcribe_audio Demo.engine "/uploads/a.mp3" "ru" Demo.world_stale))
    !! "en"
  = _model_cache Demo.world_stale !! "en".
Proof.
  apply (transcribe_audio_keeps_cached_models
           Demo.engine "/uploads/a.mp3" "ru" "en" Demo.world_stale).
  left. discriminate.
Defined.

(** X7.  [transcribe_audio] leaves every file other than its temporary WAV as
    it found it: the input file and the model directories are neither
    removed nor rewritten. *)
Theorem transcribe_audio_touches_only_its_wav (E : Externals)
  (file_path language path : string) (w : World E) :
  NamedTemporaryFile E (fs w) ".wav" <> Ok path ->
  fs (snd (transcribe_audio E file_path language w)) !! path = fs w !! path.
Proof.
  intros Hpath.
  pose proof (convert_audio_to_wav_fs_other E file_path path 16000 w Hpath) as Hconvert.
  pose proof (get_recognizer_fs E (vosk_lang_of language) 16000
                (snd (convert_audio_to_wav E file_path 16000 w))) as Hrecognizer.
  destruct (transcribe_audio_state E file_path language w)
    as [-> | [-> | [-> | (wav_path & w3 & Hwav & Hcleanup & ->)]]].
  - reflexivity.
  - exact Hconvert.
  - now rewrite Hrecognizer.
  - destruct (convert_audio_to_wav E file_path 16000 w) as [name w1] eqn:Hconv.
    cbn [fst snd] in *. subst name.
    apply convert_audio_to_wav_some in Hconv as (Htmp & _ & _).
    rewrite (cleanup_fs_other E wav_path path _ _) by (congruence || exact Hcleanup).
    now rewrite Hrecognizer.
Qed.

Lemma transcribe_audio_touches_only_its_wav_witness :
  fs (snd (transcribe_audio Demo.engine "/uploads/a.mp3" "en" Demo.world_en))
    !! Demo.en_path
  = fs Demo.world_en !! Demo.en_path.
Proof.
  apply (transcribe_audio_touches_only_its_wav
           Demo.engine "/uploads/a.mp3" "en" Demo.en_path Demo.world_en).
  vm_compute. discriminate.
Defined.

Lemma transcribe_audio_removes_wav_after_recognition_witness :
  fs (snd (transcribe_audio DemoFaults.engine_recognizer_raises "/uploads/a.mp3" "en"
             DemoFaults.world_en_recognizer_raises)) !! Demo.tmp_wav = None.
Proof.
  apply (transcribe_audio_removes_wav_after_recognition
           DemoFaults.engine_recognizer_raises "/uploads/a.mp3" "en" Demo.tmp_wav
           DemoFaults.world_en_recognizer_raises
           (snd (convert_audio_to_wav DemoFaults.engine_recognizer_raises
                   "/uploads/a.mp3" 16000 DemoFaults.world_en_recognizer_raises))
           (snd (get_recognizer DemoFaults.engine_recognizer_raises "en" 16000
                   (snd (convert_audio_to_wav DemoFaults.engine_recognizer_raises
                           "/uploads/a.mp3" 16000
                           DemoFaults.world_en_recognizer_raises))))
           O);
    vm_compute; reflexivity.
Defined.

(** X9.  When [os.unlink] raises in the [finally] clause, the exception
    replaces whatever the recognition had produced, a success included:
    the outer handler turns it into a failure result, and the temporary
    file is still on disk. *)
Theorem unlink_error_replaces_the_result (E : Externals)
  (file_path language wav_path msg : string) (w w1 w2 : World E)
  (recognizer : KaldiRecognizer E) :
  VOSK_AVAILABLE E = true ->
  convert_audio_to_wav E file_path 16000 w = (Some wav_path, w1) ->
  Py.truthy wav_path = true ->
  get_recognizer E (vosk_lang_of language) 16000 w1 = (Some recognizer, w2) ->
  unlink_error E wav_path = Some msg ->
  transcribe_audio E file_path language w
  = (failure_result ("Transcription failed: " ++ msg), w2) /\
  is_Some (fs w2 !! wav_path).
Proof.
  intros Hvosk Hconvert Hname Hrecognizer Hunlink.
  assert (Hexists : is_Some (fs w2 !! wav_path)).
  { pose proof (get_recognizer_fs E (vosk_lang_of language) 16000 w1) as Hfs.
    rewrite Hrecognizer in Hfs. cbn [snd] in Hfs. rewrite Hfs.
    apply convert_audio_to_wav_some in Hconvert as (_ & [frames ->] & _).
    rewrite lookup_insert_eq. eauto. }
  split; [|exact Hexists].
  unfold transcribe_audio. rewrite Hvosk, Hconvert, Hname, Hrecognizer. cbn [negb].
  unfold cleanup, path_exists.
  rewrite bool_decide_eq_true_2 by exact Hexists. rewrite Hunlink. reflexivity.
Qed.

Lemma unlink_error_replaces_the_result_witness :
  transcribe_audio DemoFaults.engine_unlink_refused "/uploads/a.mp3" "en"
    DemoFaults.world_en_unlink_refused
  = (failure_result
       "Transcription failed: [Errno 13] Permission denied: '/tmp/tmpk3v9.wav'",
     snd (get_recognizer DemoFaults.engine_unlink_refused "en" 16000
            (snd (convert_audio_to_wav DemoFaults.engine_unlink_refused
                    "/uploads/a.mp3" 16000 DemoFaults.world_en_unlink_refused)))) /\
  is_Some
    (fs (snd (get_recognizer DemoFaults.engine_unlink_refused "en" 16000
                (snd (convert_audio_to_wav DemoFaults.engine_unlink_refused
                        "/uploads/a.mp3" 16000 DemoFaults.world_en_unlink_refused))))
       !! Demo.tmp_wav).
Proof.
  apply (unlink_error_replaces_the_result
           DemoFaults.engine_unlink_refused "/uploads/a.mp3" "en" Demo.tmp_wav
           "[Errno 13] Permission denied: '/tmp/tmpk3v9.wav'"
           DemoFaults.world_en_unlink_refused
           (snd (convert_audio_to_wav DemoFaults.engine_unlink_refused
                   "/uploads/a.mp3" 16000 DemoFaults.world_en_unlink_refused))
           _ O);
    vm_compute; reflexivity.
Defined.

(** ** Languages that cannot be transcribed *)

(** No recogniser for a language that is neither listed nor cached, also
    after the normaliser has written its file. *)
Lemma get_recognizer_unlisted (E : Externals) (lang : string) (rate : Z)
  (w w1 : World E) :
  get_available_languages E w !! lang = None ->
  _model_cache w1 !! lang = None ->
  (forall model_path,
      MODEL_PATHS E !! lang = Some model_path -> fs w1 !! model_path = fs w !! model_path) ->
  get_recognizer E lang rate w1 = (None, w1).
Proof.
  intros Hunlisted Hcache Hfs.
  rewrite get_available_languages_lookup in Hunlisted.
  unfold get_recognizer, get_model.
  destruct (VOSK_AVAILABLE E); cbn [negb]; [|reflexivity].
  rewrite Hcache.
  destruct (MODEL_PATHS E !! lang) as [model_path|]; [|reflexivity].
  cbn in Hunlisted.
  assert (Hexists : path_exists w1 model_path = path_exists w model_path).
  { unfold path_exists. now rewrite (Hfs model_path eq_refl). }
  rewrite Hexists.
  destruct (path_exists w model_path); [discriminate|reflexivity].
Qed.

Lemma transcribe_audio_fails_unlisted (E : Externals) (file_path language : string)
  (w : World E) :
  get_available_languages E w !! vosk_lang_of language = None ->
  _model_cache w !! vosk_lang_of language = None ->
  (forall model_path,
      MODEL_PATHS E !! vosk_lang_of language = Some model_path ->
      NamedTemporaryFile E (fs w) ".wav" <> Ok model_path) ->
  exists error, fst (transcribe_audio E file_path language w) = failure_result error.
Proof.
  intros Hunlisted Hcache Htmp.
  assert (Hrecognizer :
            get_recognizer E (vosk_lang_of language) 16000
              (snd (convert_audio_to_wav E file_path 16000 w))
            = (None, snd (convert_audio_to_wav E file_path 16000 w))).
  { apply (get_recognizer_unlisted E _ 16000 w); [exact Hunlisted| |].
    - now rewrite convert_audio_to_wav_cache.
    - intros model_path Hpath. apply convert_audio_to_wav_fs_other.
      now apply Htmp. }
  unfold transcribe_audio.
  destruct (VOSK_AVAILABLE E); cbn [negb]; [|cbn [fst]; eauto].
  destruct (convert_audio_to_wav E file_path 16000 w) as [[wav_path|] w1];
    cbn [fst snd] in *; [|eauto].
  destruct (Py.truthy wav_path); cbn [negb fst]; [|eauto].
  rewrite Hrecognizer. cbn [fst]. eauto.
Qed.

(** X10.  A language that [get_available_languages] does not list and that is
    not in the cache cannot be transcribed: the call fails.  (The
    temporary file is taken not to be created at the model location.) *)
Theorem unlisted_language_is_not_transcribed (E : Externals)
  (file_path language : string) (w : World E) :
  get_available_languages E w !! vosk_lang_of language = None ->
  _model_cache w !! vosk_lang_of language = None ->
  (forall model_path,
      MODEL_PATHS E !! vosk_lang_of language = Some model_path ->
      NamedTemporaryFile E (fs w) ".wav" <> Ok model_path) ->
  fst (transcribe_audio E file_path language w) !! "success" = Some (VBool false) /\
  fst (transcribe_audio E file_path language w) !! "text" = Some (VStr "").
Proof.
  intros Hunlisted Hcache Htmp.
  destruct (transcribe_audio_fails_unlisted E file_path language w Hunlisted Hcache Htmp)
    as [error ->].
  destruct (failure_result_shape error) as (Hsuccess & Htext & _).
  split; assumption.
Qed.

Lemma unlisted_language_is_not_transcribed_witness :
  fst (transcribe_audio Demo.engine "/uploads/a.mp3" "ru" Demo.world_en) !! "success"
  = Some (VBool false) /\
  fst (transcribe_audio Demo.engine "/uploads/a.mp3" "ru" Demo.world_en) !! "text"
  = Some (VStr "").
Proof.
  apply (unlisted_language_is_not_transcribed
           Demo.engine "/uploads/a.mp3" "ru" Demo.world_en).
  - vm_compute. reflexivity.
  - vm_compute. reflexivity.
  - intros model_path Hpath. vm_compute in Hpath. injection Hpath as <-.
    vm_compute. discriminate.
Defined.

(** X11.  When [health_check] does not answer ready and no model is cached,
    every call of [transcribe_audio] fails, whatever the language. *)
Theorem not_ready_means_no_transcription (E : Externals)
  (file_path language : string) (w : World E) :
  ready (health_check E w) = false ->
  _model_cache w = ∅ ->
  (forall model_path,
      MODEL_PATHS E !! vosk_lang_of language = Some model_path ->
      NamedTemporaryFile E (fs w) ".wav" <> Ok model_path) ->
  fst (transcribe_audio E file_path language w) !! "success" = Some (VBool false).
Proof.
  intros Hready Hcache Htmp.
  assert (Hfailure : exists error,
             fst (transcribe_audio E file_path language w) = failure_result error).
  { destruct (VOSK_AVAILABLE E) eqn:Hvosk;
      [|unfold transcribe_audio; rewrite Hvosk; cbn; eauto].
    destruct (PYDUB_AVAILABLE E) eqn:Hpydub.
    - apply transcribe_audio_fails_unlisted; [|rewrite Hcache; apply lookup_empty|exact Htmp].
      destruct (get_available_languages E w !! vosk_lang_of language) as [name|] eqn:Hlisted;
        [|reflexivity].
      assert (Hyes : ready (health_check E w) = true).
      { set (lang := vosk_lang_of language) in *.
        unfold health_check. cbn [ready]. rewrite Hvosk, Hpydub. cbn [andb].
        apply any_values_true. exists lang.
        pose proof (models_available_lookup E w lang Hvosk) as Hmodels.
        unfold health_check in Hmodels. rewrite Hvosk in Hmodels.
        cbn [models_available] in Hmodels. rewrite Hmodels.
        rewrite get_available_languages_lookup in Hlisted.
        destruct (MODEL_PATHS E !! lang) as [model_path|]; [|discriminate].
        cbn in Hlisted |- *. destruct (path_exists w model_path); [reflexivity|discriminate]. }
      rewrite Hyes in Hready. discriminate.
    - unfold transcribe_audio, convert_audio_to_wav. rewrite Hvosk, Hpydub. cbn. eauto. }
  destruct Hfailure as [error ->].
  destruct (failure_result_shape error) as (Hsuccess & _). exact Hsuccess.
Qed.

Lemma not_ready_means_no_transcription_witness :
  fst (transcribe_audio Demo.engine "/uploads/a.mp3" "auto" Demo.world_empty) !! "success"
  = Some (VBool false).
Proof.
  apply (not_ready_means_no_transcription
           Demo.engine "/uploads/a.mp3" "auto" Demo.world_empty).
  - vm_compute. reflexivity.
  - reflexivity.
  - intros model_path Hpath. vm_compute in Hpath. injection Hpath as <-.
    vm_compute. discriminate.
Defined.

(** ** The shape of the text *)

Lemma rev_app_append (s1 s2 acc : string) :
  String.rev_app (s1 ++ s2) acc = String.rev_app s2 (String.rev_app s1 acc).
Proof.
  revert acc. induction s1 as [|c t IH]; intros acc; [reflexivity|].
  cbn [String.append String.rev_app]. apply IH.
Qed.

Lemma endswith_append_period (s : string) : Py.endswith (s ++ ".") "." = true.
Proof.
  unfold Py.endswith, String.rev. rewrite rev_app_append.
  cbn [String.rev_app String.prefix].
  destruct (ascii_dec "." "."); [|congruence].
  destruct (String.rev_app s ""); reflexivity.
Qed.

Lemma truthy_append_l (s1 s2 : string) :
  Py.truthy s1 = true -> Py.truthy (s1 ++ s2) = true.
Proof. destruct s1; [discriminate|reflexivity]. Qed.

Lemma postProcess_nonempty (s : string) :
  Py.truthy s = true ->
  Py.truthy (postProcess s) = true /\ Py.endswith (postProcess s) "." = true.
Proof.
  intros Hs. pose proof (joined_truthy s Hs) as Hjoined.
  unfold postProcess. rewrite Hs. cbv zeta.
  destruct (Py.endswith (Py.join ". " (map Py.capitalize (Py.split s ". "))) ".")
    eqn:Hends; cbn [negb].
  - split; assumption.
  - split; [now apply truthy_append_l|apply endswith_append_period].
Qed.

Lemma is_lower_upper_char (c : ascii) : Py.is_lower (Py.upper_char c) = false.
Proof. destruct c as [[] [] [] [] [] [] [] []]; reflexivity. Qed.

(** The text that the post-processor returns does not begin with a
    lower-case letter. *)
Lemma postProcess_first_character (s rest : string) (c : ascii) :
  postProcess s = String c rest -> Py.is_lower c = false.
Proof.
  destruct s as [|c0 t0]; [discriminate|].
  unfold postProcess, Py.split. cbn [Py.truthy Py.split_go]. cbv zeta.
  assert (Hhead : exists rest',
             Py.join ". " (map Py.capitalize
               (if String.prefix ". " (String c0 t0)
                then EmptyString :: Py.split_go ". " (String.length ". " - 1) t0
                else match Py.split_go ". " 0 t0 with
                     | seg :: segs => String c0 seg :: segs
                     | [] => [String c0 EmptyString]
                     end))
             = String "." rest' \/
             Py.join ". " (map Py.capitalize
               (if String.prefix ". " (String c0 t0)
                then EmptyString :: Py.split_go ". " (String.length ". " - 1) t0
                else match Py.split_go ". " 0 t0 with
                     | seg :: segs => String c0 seg :: segs
                     | [] => [String c0 EmptyString]
                     end))
             = String (Py.upper_char c0) rest').
  { destruct (String.prefix ". " (String c0 t0)).
    - pose proof (split_go_nonempty ". " t0 (String.length ". " - 1)) as Hne.
      destruct (Py.split_go ". " (String.length ". " - 1) t0) as [|x xs];
        [contradiction|]. eexists. left. reflexivity.
    - destruct (Py.split_go ". " 0 t0) as [|x xs]; [eexists; right; reflexivity|].
      destruct xs; eexists; right; reflexivity. }
  destruct Hhead as [rest' [-> | ->]];
    match goal with |- context [negb ?b] => destruct b end; cbn [negb String.append];
    intros [= <- _]; first [reflexivity | apply is_lower_upper_char].
Qed.

(** X12.  The text of every result of [transcribe_audio], success or failure,
    is empty or ends with a period, and it never begins with a
    lower-case letter. *)
Theorem transcribe_audio_text_format (E : Externals) (file_path language text : string)
  (w : World E) :
  fst (transcribe_audio E file_path language w) !! "text" = Some (VStr text) ->
  (text = "" \/ Py.endswith text "." = true) /\
  (forall c rest, text = String c rest -> Py.is_lower c = false).
Proof.
  assert (Hpost : forall raw,
             (postProcess raw = "" \/ Py.endswith (postProcess raw) "." = true) /\
             (forall c rest, postProcess raw = String c rest -> Py.is_lower c = false)).
  { intros raw. split.
    - destruct (Py.truthy raw) eqn:Hraw.
      + right. now apply postProcess_nonempty.
      + left. destruct raw; [reflexivity|discriminate].
    - intros c rest. apply postProcess_first_character. }
  assert (Hempty : (("" = "" \/ Py.endswith "" "." = true) /\
                   (forall c rest, "" = String c rest -> Py.is_lower c = false))).
  { split; [left; reflexivity|discriminate]. }
  unfold transcribe_audio.
  repeat case_match; cbn [fst]; unfold failure_result, success_result;
    rewrite ?lookup_insert_eq, ?lookup_insert_ne by discriminate;
    rewrite ?lookup_insert_eq, ?lookup_singleton_eq;
    intros [= <-]; first [exact Hempty | apply Hpost].
Qed.

Lemma transcribe_audio_text_format_witness :
  ("Hello world." = "" \/ Py.endswith "Hello world." "." = true) /\
  (forall c rest, "Hello world." = String c rest -> Py.is_lower c = false).
Proof.
  apply (transcribe_audio_text_format Demo.engine "/uploads/a.mp3" "en" "Hello world."
           Demo.world_en).
  vm_compute. reflexivity.
Defined.

(** ** Stripping and content *)

Lemma truthy_lstrip (s : string) : Py.truthy (Py.lstrip s) = has_content s.
Proof.
  induction s as [|c t IH]; [reflexivity|].
  cbn [Py.lstrip has_content]. destruct (Py.isspace c); [exact IH|reflexivity].
Qed.

Lemma has_content_lstrip (s : string) : has_content (Py.lstrip s) = has_content s.
Proof.
  induction s as [|c t IH]; [reflexivity|].
  cbn [Py.lstrip]. destruct (Py.isspace c) eqn:Hc; [|reflexivity].
  cbn [has_content]. rewrite Hc. exact IH.
Qed.

Lemma has_content_rev_app (s acc : string) :
  has_content (String.rev_app s acc) = has_content s || has_content acc.
Proof.
  revert acc. induction s as [|c t IH]; intros acc; [reflexivity|].
  cbn [String.rev_app]. rewrite IH. cbn [has_content].
  destruct (Py.isspace c), (has_content t), (has_content acc); reflexivity.
Qed.

Lemma has_content_rev (s : string) : has_content (String.rev s) = has_content s.
Proof. unfold String.rev. rewrite has_content_rev_app. apply orb_false_r. Qed.

Lemma truthy_rev_app (s acc : string) :
  Py.truthy (String.rev_app s acc) = Py.truthy s || Py.truthy acc.
Proof.
  revert acc. induction s as [|c t IH]; intros acc; [reflexivity|].
  cbn [String.rev_app]. rewrite IH. cbn [Py.truthy]. apply orb_true_r.
Qed.

(** [s.strip()] is non-empty exactly when [s] has a character that is
    not white space. *)
Lemma truthy_strip (s : string) : Py.truthy (Py.strip s) = has_content s.
Proof.
  unfold Py.strip, Py.rstrip, String.rev at 1.
  rewrite truthy_rev_app, orb_false_r, truthy_lstrip, has_content_rev.
  apply has_content_lstrip.
Qed.

Lemma has_content_append (s1 s2 : string) :
  has_content (s1 ++ s2) = has_content s1 || has_content s2.
Proof.
  induction s1 as [|c t IH]; [reflexivity|].
  change (String c t ++ s2) with (String c (t ++ s2)).
  cbn [has_content]. rewrite IH. apply orb_assoc.
Qed.

Lemma has_content_join (parts : list string) :
  has_content (Py.join " " parts) = existsb has_content parts.
Proof.
  unfold Py.join. induction parts as [|x [|y l] IH]; [reflexivity| |].
  - cbn. now rewrite orb_false_r.
  - change (String.concat " " (x :: y :: l))
      with (x ++ " " ++ String.concat " " (y :: l)).
    rewrite !has_content_append, IH. reflexivity.
Qed.

Lemma recognize_file_nonblank (E : Externals) (recognizer : KaldiRecognizer E)
  (files : gmap string file) (wav_path : string) (fragments : list string) :
  recognize_file E recognizer files wav_path = Ok fragments ->
  Forall nonblank fragments.
Proof.
  unfold recognize_file.
  destruct (wave_open files wav_path) as [frames|]; try discriminate.
  destruct (feed_loop E recognizer [] (readframes_all 4000 frames))
    as [[r1 acc1]|] eqn:Hloop; try discriminate.
  apply finalize_nonblank.
  exact (feed_loop_nonblank E _ _ _ _ _ (List.Forall_nil _) Hloop).
Qed.

(** X13.  When the recognition of the converted file goes through, the call
    succeeds, and its text is empty exactly when no fragment was
    collected: one collected fragment is enough for a text that is not
    empty. *)
Theorem text_is_empty_iff_nothing_collected (E : Externals)
  (file_path language wav_path : string) (w w1 w2 : World E)
  (recognizer : KaldiRecognizer E) (fragments : list string) :
  VOSK_AVAILABLE E = true ->
  convert_audio_to_wav E file_path 16000 w = (Some wav_path, w1) ->
  Py.truthy wav_path = true ->
  get_recognizer E (vosk_lang_of language) 16000 w1 = (Some recognizer, w2) ->
  recognize_file E recognizer (fs w2) wav_path = Ok fragments ->
  unlink_error E wav_path = None ->
  fst (transcribe_audio E file_path language w) !! "success" = Some (VBool true) /\
  (fst (transcribe_audio E file_path language w) !! "text" = Some (VStr "") <->
   fragments = []).
Proof.
  intros Hvosk Hconvert Hname Hrecognizer Hfile Hunlink.
  assert (Hresult : fst (transcribe_audio E file_path language w)
                    = success_result
                        (postProcess (Py.strip (Py.join " " fragments)))
                        (vosk_lang_of language)).
  { unfold transcribe_audio.
    rewrite Hvosk, Hconvert, Hname, Hrecognizer, Hfile. cbn [negb].
    unfold cleanup. rewrite Hunlink. destruct (path_exists w2 wav_path); reflexivity. }
  rewrite Hresult.
  destruct (success_result_shape (postProcess (Py.strip (Py.join " " fragments)))
              (vosk_lang_of language)) as (Hsuccess & _).
  split; [exact Hsuccess|].
  unfold success_result.
  rewrite lookup_insert_ne by discriminate. rewrite lookup_insert_eq.
  apply recognize_file_nonblank in Hfile.
  split.
  - intros [= Htext]. destruct fragments as [|x l]; [reflexivity|exfalso].
    assert (Hcontent : Py.truthy (Py.strip (Py.join " " (x :: l))) = true).
    { rewrite truthy_strip, has_content_join. cbn [existsb].
      inversion Hfile as [|? ? Hx _]; subst. unfold nonblank in Hx.
      rewrite truthy_strip in Hx. now rewrite Hx. }
    apply postProcess_nonempty in Hcontent as [Htruthy _].
    rewrite Htext in Htruthy. discriminate.
  - intros ->. reflexivity.
Qed.

Lemma text_is_empty_iff_nothing_collected_witness :
  fst (transcribe_audio Demo.engine "/uploads/a.mp3" "en" Demo.world_en) !! "success"
  = Some (VBool true) /\
  (fst (transcribe_audio Demo.engine "/uploads/a.mp3" "en" Demo.world_en) !! "text"
   = Some (VStr "") <->
   ["hello world"] = []).
Proof.
  apply (text_is_empty_iff_nothing_collected
           Demo.engine "/uploads/a.mp3" "en" Demo.tmp_wav Demo.world_en
           (snd (convert_audio_to_wav Demo.engine "/uploads/a.mp3" 16000 Demo.world_en))
           (snd (get_recognizer Demo.engine "en" 16000
                   (snd (convert_audio_to_wav Demo.engine "/uploads/a.mp3" 16000
                           Demo.world_en))))
           O ["hello world"]);
    vm_compute; reflexivity.
Defined.

(** ** The order of the fragments *)

Lemma collect_appends (result_text acc : list string) (result : gmap string pyval) :
  collect result_text result = Ok acc -> exists new, acc = (result_text ++ new)%list.
Proof.
  unfold collect.
  destruct (default (VStr "") (result !! "text")) as [| | | |text]; try discriminate.
  destruct (Py.truthy (Py.strip text)); intros [= <-].
  - exists [text]. reflexivity.
  - exists []. now rewrite app_nil_r.
Qed.

Lemma feed_appends (E : Externals) (recognizer recognizer' : KaldiRecognizer E)
  (result_text acc : list string) (data : list Byte.byte) :
  feed E recognizer result_text data = Ok (recognizer', acc) ->
  exists new, acc = (result_text ++ new)%list.
Proof.
  unfold feed.
  destruct (AcceptWaveform E recognizer data) as [[[] r1]|]; try discriminate.
  - destruct (Result E r1) as [[result r2]|]; try discriminate.
    destruct (collect result_text result) as [acc'|] eqn:Hcollect; try discriminate.
    intros [= _ <-]. exact (collect_appends _ _ _ Hcollect).
  - intros [= _ <-]. exists []. now rewrite app_nil_r.
Qed.

(** X14.  The feeding loop and the finalisation only ever append to the
    collected fragments: what was collected before stays, in the same
    order and at the front. *)
Theorem fragments_are_only_appended (E : Externals) (reads : list (list frame))
  (recognizer recognizer' : KaldiRecognizer E) (result_text acc final : list string) :
  feed_loop E recognizer result_text reads = Ok (recognizer', acc) ->
  finalize E recognizer' acc = Ok final ->
  exists mid last,
    acc = (result_text ++ mid)%list /\ final = (result_text ++ mid ++ last)%list.
Proof.
  intros Hloop Hfinal.
  assert (Hmid : exists mid, acc = (result_text ++ mid)%list).
  { revert recognizer result_text Hloop.
    induction reads as [|chunk reads IH]; intros recognizer result_text; cbn [feed_loop].
    - intros [= _ <-]. exists []. now rewrite app_nil_r.
    - destruct (length (concat chunk) =? 0)%nat.
      { intros [= _ <-]. exists []. now rewrite app_nil_r. }
      destruct (feed E recognizer result_text (concat chunk)) as [[r1 acc1]|] eqn:Hfeed;
        try discriminate.
      intros Hrest. apply feed_appends in Hfeed as [new1 ->].
      destruct (IH _ _ Hrest) as [new2 ->].
      exists (new1 ++ new2)%list. now rewrite app_assoc. }
  destruct Hmid as [mid ->]. exists mid.
  unfold finalize in Hfinal.
  destruct (FinalResult E recognizer') as [[final_result r1]|]; try discriminate.
  apply collect_appends in Hfinal as [last ->].
  exists last. split; [reflexivity|]. now rewrite app_assoc.
Qed.

Lemma fragments_are_only_appended_witness :
  exists mid last,
    ["earlier"; "hello world"] = (["earlier"] ++ mid)%list /\
    ["earlier"; "hello world"] = (["earlier"] ++ mid ++ last)%list.
Proof.
  apply (fragments_are_only_appended Demo.engine [[Demo.sample]] O 1%nat
           ["earlier"] ["earlier"; "hello world"] ["earlier"; "hello world"]);
    vm_compute; reflexivity.
Defined.

(** ** The HTTP layer *)

Lemma typed_entries_success (final_text vosk_lang language : string) :
  typed_entries (success_result final_text vosk_lang) language
  = Some (vosk_lang, final_text, true, None).
Proof. reflexivity. Qed.

Lemma typed_entries_failure (error language : string) :
  typed_entries (failure_result error) language = Some (language, "", false, Some error).
Proof. reflexivity. Qed.

Lemma listed_language_resolves_to_itself (E : Externals) (w : World E) (language : string) :
  is_Some (get_available_languages E w !! language) ->
  vosk_lang_of language = language.
Proof.
  rewrite get_available_languages_lookup. intros [name Hname].
  destruct (MODEL_PATHS E !! language) as [model_path|] eqn:Hpath; [|discriminate].
  destruct (MODEL_PATHS_keys E language model_path Hpath) as [-> | [-> | ->]];
    reflexivity.
Qed.

(** What the body of the [try] does, by its outcome. *)
Lemma transcribe_attempt_cases (E : Externals) (S : ServerExternals) (upload : Upload.t)
  (language tmp_path : string) (w : ServerWorld E) :
  (exists e, transcribe_attempt E S upload language tmp_path w
             = (Raise e, mkServerWorld
                           (core (snd (transcribe_attempt E S upload language tmp_path w)))
                           (transcriptions w)) /\
             (Upload.read upload = Raise e \/
              (exists content, Upload.read upload = Ok content /\
                               write_error S tmp_path content = Some e) \/
              (exists document, insert_one S document (transcriptions w) = Raise e))) \/
  (exists content,
      Upload.read upload = Ok content /\
      write_error S tmp_path content = None /\
      core (snd (transcribe_attempt E S upload language tmp_path w))
      = snd (transcribe_audio E tmp_path language (core w)) /\
      ((exists final_text,
           fst (transcribe_audio E tmp_path language (core w))
           = success_result final_text (vosk_lang_of language) /\
           fst (transcribe_attempt E S upload language tmp_path w)
           = Ok (Response.mk (uuid4 S) (Upload.filename upload) (vosk_lang_of language)
                   final_text None (N.of_nat (length content)) (utcnow S) true None) /\
           transcriptions w !! uuid4 S = None /\
           transcriptions (snd (transcribe_attempt E S upload language tmp_path w))
           = <[uuid4 S :=
                 Doc.mk (uuid4 S) (Upload.filename upload) (vosk_lang_of language)
                   final_text (N.of_nat (length content)) (utcnow S) true None]>
               (transcriptions w)) \/
       (exists error,
           fst (transcribe_audio E tmp_path language (core w)) = failure_result error /\
           fst (transcribe_attempt E S upload language tmp_path w)
           = Ok (Response.mk (uuid4 S) (Upload.filename upload) language
                   "" None (N.of_nat (length content)) (utcnow S) false (Some error)) /\
           transcriptions (snd (transcribe_attempt E S upload language tmp_path w))
           = transcriptions w))).
Proof.
  unfold transcribe_attempt.
  destruct (Upload.read upload) as [content|e].
  2:{ left. exists e. destruct w. split; [reflexivity|left; reflexivity]. }
  destruct (write_error S tmp_path content) as [e|] eqn:Hwrite.
  { left. exists e. destruct w. split; [reflexivity|]. right; left. eauto. }
  destruct (transcribe_audio_cases E tmp_path language (core w)) as [[t Hresult]|[e Hresult]];
    destruct (transcribe_audio E tmp_path language (core w)) as [result c];
    cbn [fst snd] in *; subst result.
  - rewrite typed_entries_success.
    replace (pyval_truthy
               (default VNone (success_result t (vosk_lang_of language) !! "success")))
      with true by reflexivity.
    cbn [transcriptions core Doc.createdAt].
    unfold insert_one. cbn [Doc._id].
    destruct (insert_one_error S) as [msg|] eqn:Hinsert.
    { left. exists msg. split; [reflexivity|]. right; right.
      exists (Doc.mk (uuid4 S) "" "" "" 0 0 true None). reflexivity. }
    destruct (transcriptions w !! uuid4 S) as [old|] eqn:Hold.
    { left. exists (duplicate_key_error S (uuid4 S)). split; [reflexivity|].
      right; right.
      exists (Doc.mk (uuid4 S) "" "" "" 0 0 true None).
      cbn [Doc._id]. now rewrite Hold. }
    right. exists content.
    split; [reflexivity|]. split; [exact Hwrite|]. split; [reflexivity|].
    left. exists t. repeat split; first [reflexivity | exact Hold].
  - rewrite typed_entries_failure.
    replace (pyval_truthy (default VNone (failure_result e !! "success")))
      with false by reflexivity.
    right. exists content.
    split; [reflexivity|]. split; [exact Hwrite|]. split; [reflexivity|].
    right. exists e. repeat split; reflexivity.
Qed.

Lemma accepted_checks (E : Externals) (upload : Upload.t) (language : string)
  (w : ServerWorld E) :
  accepted E upload language w <->
  too_large (Upload.size upload) = false /\
  supported_format (Upload.content_type upload) = true /\
  negb (bool_decide (is_Some (get_available_languages E (core w) !! language)))
  && negb (String.eqb language "auto") = false.
Proof.
  unfold accepted. rewrite andb_false_iff, !negb_false_iff, bool_decide_eq_true.
  rewrite String.eqb_eq. reflexivity.
Qed.

Lemma transcribe_audio_file_rejected (E : Externals) (S : ServerExternals)
  (upload : Upload.t) (language : string) (w : ServerWorld E) :
  ~ accepted E upload language w ->
  exists e, transcribe_audio_file E S upload language w = (HTTPError e, w) /\
            (status_code e = 413%N \/ status_code e = 400%N).
Proof.
  rewrite accepted_checks. intros Hrejected. unfold transcribe_audio_file.
  destruct (too_large (Upload.size upload)); [eexists; split; [reflexivity|now left]|].
  destruct (supported_format (Upload.content_type upload)); cbn [negb];
    [|eexists; split; [reflexivity|now right]].
  cbv zeta.
  destruct (negb (bool_decide (is_Some (get_available_languages E (core w) !! language)))
            && negb (String.eqb language "auto"));
    [eexists; split; [reflexivity|now right]|].
  exfalso. apply Hrejected. repeat split.
Qed.

(** The handler of an accepted request, after its three checks. *)
Lemma transcribe_audio_file_accepted (E : Externals) (S : ServerExternals)
  (upload : Upload.t) (language : string) (w : ServerWorld E) :
  accepted E upload language w ->
  transcribe_audio_file E S upload language w
  = match NamedTemporaryFile E (fs (core w)) (path_suffix S (Upload.filename upload)) with
    | Raise e => (Unhandled e, w)
    | Ok tmp_path =>
        let a :=
          transcribe_attempt E S upload language tmp_path
            (mkServerWorld (set_fs (core w) (<[tmp_path := EmptyFile]> (fs (core w))))
               (transcriptions w)) in
        match cleanup E tmp_path (core (snd a)) with
        | Raise e => (Unhandled e, snd a)
        | Ok c =>
            (match fst a with
             | Ok response => Returned response
             | Raise e => HTTPError (mkHTTPException 500 ("Transcription failed: " ++ e))
             end, mkServerWorld c (transcriptions (snd a)))
        end
    end.
Proof.
  rewrite accepted_checks. intros (Hsize & Hformat & Hlanguage).
  unfold transcribe_audio_file. rewrite Hsize, Hformat. cbn [negb]. cbv zeta.
  rewrite Hlanguage.
  destruct (NamedTemporaryFile E (fs (core w)) (path_suffix S (Upload.filename upload)))
    as [tmp_path|e]; [|reflexivity].
  destruct (transcribe_attempt E S upload language tmp_path _) as [attempt w1].
  reflexivity.
Qed.

Lemma accepted_or_not (E : Externals) (upload : Upload.t) (language : string)
  (w : ServerWorld E) :
  accepted E upload language w \/ ~ accepted E upload language w.
Proof.
  rewrite accepted_checks.
  destruct (too_large (Upload.size upload)); [right; intros (H & _); discriminate|].
  destruct (supported_format (Upload.content_type upload));
    [|right; intros (_ & H & _); discriminate].
  destruct (negb (bool_decide (is_Some (get_available_languages E (core w) !! language)))
            && negb (String.eqb language "auto"));
    [right; intros (_ & _ & H); discriminate|left; repeat split].
Qed.

(** X17.  The checks come first.  A request that fails one of the three
    checks is answered with 413 or 400 and has no effect at all: no file
    is written, no model is loaded, nothing is stored.  A request that
    passes them is never answered with 413 or 400: the only HTTP error
    it can get is 500. *)
Theorem rejected_request_has_no_effect (E : Externals) (S : ServerExternals)
  (upload : Upload.t) (language : string) (w : ServerWorld E) :
  (~ accepted E upload language w ->
   exists e, transcribe_audio_file E S upload language w = (HTTPError e, w) /\
             (status_code e = 413%N \/ status_code e = 400%N)) /\
  (accepted E upload language w ->
   forall e, fst (transcribe_audio_file E S upload language w) = HTTPError e ->
             status_code e = 500%N).
Proof.
  split; [apply transcribe_audio_file_rejected|].
  intros Haccepted e.
  rewrite (transcribe_audio_file_accepted E S upload language w Haccepted).
  destruct (NamedTemporaryFile E (fs (core w)) (path_suffix S (Upload.filename upload)))
    as [tmp_path|msg]; [|discriminate].
  cbv zeta. destruct (cleanup E tmp_path _) as [c|msg]; [|discriminate].
  cbn [fst].
  destruct (fst (transcribe_attempt E S upload language tmp_path _)); [discriminate|].
  intros [= <-]. reflexivity.
Qed.

Lemma rejected_request_has_no_effect_witness :
  exists e,
    transcribe_audio_file Demo.engine DemoServer.externals DemoServer.text_upload "en"
      DemoServer.world_en
    = (HTTPError e, DemoServer.world_en) /\
    (status_code e = 413%N \/ status_code e = 400%N).
Proof.
  apply (rejected_request_has_no_effect Demo.engine DemoServer.externals
           DemoServer.text_upload "en" DemoServer.world_en).
  intros (_ & Hformat & _). vm_compute in Hformat. discriminate.
Defined.

(** X18.  Over HTTP a language code other than "en", "ru", "kz" and "auto" is
    never transcribed: the request is answered with 400 (or with 413 or
    400 by an earlier check), and nothing changes. *)
Theorem unknown_language_is_rejected_over_http (E : Externals) (S : ServerExternals)
  (upload : Upload.t) (language : string) (w : ServerWorld E) :
  language <> "en" -> language <> "ru" -> language <> "kz" -> language <> "auto" ->
  exists e, transcribe_audio_file E S upload language w = (HTTPError e, w) /\
            (status_code e = 413%N \/ status_code e = 400%N).
Proof.
  intros Hen Hru Hkz Hauto. apply transcribe_audio_file_rejected.
  intros (_ & _ & [[name Hlisted] | ->]); [|congruence].
  rewrite get_available_languages_lookup in Hlisted.
  destruct (MODEL_PATHS E !! language) as [model_path|] eqn:Hpath; [|discriminate].
  destruct (MODEL_PATHS_keys E language model_path Hpath) as [-> | [-> | ->]];
    congruence.
Qed.

Lemma unknown_language_is_rejected_over_http_witness :
  exists e,
    transcribe_audio_file Demo.engine DemoServer.externals DemoServer.upload
      "invalid_language" DemoServer.world_en
    = (HTTPError e, DemoServer.world_en) /\
    (status_code e = 413%N \/ status_code e = 400%N).
Proof.
  apply (unknown_language_is_rejected_over_http Demo.engine DemoServer.externals
           DemoServer.upload "invalid_language" DemoServer.world_en); discriminate.
Defined.

Lemma transcribe_audio_file_returned (E : Externals) (S : ServerExternals)
  (upload : Upload.t) (language : string) (w : ServerWorld E) (r : Response.t) :
  fst (transcribe_audio_file E S upload language w) = Returned r ->
  accepted E upload language w /\
  exists tmp_path c,
    NamedTemporaryFile E (fs (core w)) (path_suffix S (Upload.filename upload))
    = Ok tmp_path /\
    let a :=
      transcribe_attempt E S upload language tmp_path
        (mkServerWorld (set_fs (core w) (<[tmp_path := EmptyFile]> (fs (core w))))
           (transcriptions w)) in
    fst a = Ok r /\
    cleanup E tmp_path (core (snd a)) = Ok c /\
    snd (transcribe_audio_file E S upload language w)
    = mkServerWorld c (transcriptions (snd a)).
Proof.
  destruct (accepted_or_not E upload language w) as [Haccepted|Hrejected].
  2:{ destruct (transcribe_audio_file_rejected E S upload language w Hrejected)
        as (e & -> & _). discriminate. }
  rewrite (transcribe_audio_file_accepted E S upload language w Haccepted).
  intros Hreturned. split; [exact Haccepted|].
  destruct (NamedTemporaryFile E (fs (core w)) (path_suffix S (Upload.filename upload)))
    as [tmp_path|e]; [|discriminate].
  cbv zeta in *.
  destruct (cleanup E tmp_path _) as [c|e] eqn:Hcleanup; [|discriminate].
  exists tmp_path, c. split; [reflexivity|].
  cbn [fst snd] in *.
  destruct (fst (transcribe_attempt E S upload language tmp_path _)) as [response|e];
    [|discriminate].
  injection Hreturned as ->. repeat split. exact Hcleanup.
Qed.

(** X19.  A request adds at most one document to the history, under the
    identifier it drew, which was free, and only a document of a
    successful transcription; it never changes or removes a stored
    document.  This holds for every outcome of the request. *)
Theorem history_grows_only_by_successes (E : Externals) (S : ServerExternals)
  (upload : Upload.t) (language : string) (w : ServerWorld E) :
  transcriptions (snd (transcribe_audio_file E S upload language w)) = transcriptions w \/
  exists document,
    Doc._id document = uuid4 S /\
    Doc.success document = true /\
    transcriptions w !! uuid4 S = None /\
    transcriptions (snd (transcribe_audio_file E S upload language w))
    = <[uuid4 S := document]> (transcriptions w).
Proof.
  destruct (accepted_or_not E upload language w) as [Haccepted|Hrejected].
  2:{ destruct (transcribe_audio_file_rejected E S upload language w Hrejected)
        as (e & -> & _). left. reflexivity. }
  rewrite (transcribe_audio_file_accepted E S upload language w Haccepted).
  destruct (NamedTemporaryFile E (fs (core w)) (path_suffix S (Upload.filename upload)))
    as [tmp_path|e]; [|left; reflexivity].
  cbv zeta.
  set (w0 := mkServerWorld (set_fs (core w) (<[tmp_path := EmptyFile]> (fs (core w))))
               (transcriptions w)).
  assert (Hattempt :
            transcriptions (snd (transcribe_attempt E S upload language tmp_path w0))
            = transcriptions w \/
            exists document,
              Doc._id document = uuid4 S /\ Doc.success document = true /\
              transcriptions w !! uuid4 S = None /\
              transcriptions (snd (transcribe_attempt E S upload language tmp_path w0))
              = <[uuid4 S := document]> (transcriptions w)).
  { destruct (transcribe_attempt_cases E S upload language tmp_path w0)
      as [(e & Hraise & _) | (content & _ & _ & _ & [Hok | Hko])].
    - left. rewrite Hraise. reflexivity.
    - destruct Hok as (t & _ & _ & Hfree & Hstored). right.
      eexists. split; [|split; [|split; [exact Hfree|exact Hstored]]]; reflexivity.
    - destruct Hko as (e & _ & _ & Hsame). left. exact Hsame. }
  destruct (cleanup E tmp_path _); exact Hattempt.
Qed.

(** X20.  What a returned response says.  After a success it carries the
    resolved language, which is the requested one unless "auto" was
    requested, and no error.  After a failure of the pipeline it is
    still a returned response (not an HTTP error): it carries the
    language as requested, the empty text and the error message, and
    nothing is stored. *)
Theorem returned_response_reports_the_pipeline (E : Externals) (S : ServerExternals)
  (upload : Upload.t) (language : string) (w : ServerWorld E) (r : Response.t) :
  fst (transcribe_audio_file E S upload language w) = Returned r ->
  (Response.success r = true /\
   Response.language r = vosk_lang_of language /\
   (language = "auto" \/ Response.language r = language) /\
   Response.error r = None) \/
  (Response.success r = false /\
   Response.language r = language /\
   Response.text r = "" /\
   is_Some (Response.error r) /\
   transcriptions (snd (transcribe_audio_file E S upload language w)) = transcriptions w).
Proof.
  intros Hreturned.
  destruct (transcribe_audio_file_returned E S upload language w r Hreturned)
    as ((_ & _ & Hlanguage) & tmp_path & c & _ & Hattempt & _ & Hstate).
  cbv zeta in *. rewrite Hstate. cbn [transcriptions].
  destruct (transcribe_attempt_cases E S upload language tmp_path
              (mkServerWorld (set_fs (core w) (<[tmp_path := EmptyFile]> (fs (core w))))
                 (transcriptions w)))
    as [(e & Hraise & _) | (content & _ & _ & _ & [Hok | Hko])].
  - rewrite Hraise in Hattempt. discriminate.
  - destruct Hok as (t & _ & Hresponse & _). rewrite Hresponse in Hattempt.
    injection Hattempt as <-. left. cbn. repeat split.
    destruct Hlanguage as [Hlisted | ->]; [right|left; reflexivity].
    exact (listed_language_resolves_to_itself E (core w) language Hlisted).
  - destruct Hko as (e & _ & Hresponse & Hsame). rewrite Hresponse in Hattempt.
    injection Hattempt as <-. right. cbn. repeat split; eauto.
Qed.

Lemma returned_response_reports_the_pipeline_witness :
  transcriptions
    (snd (transcribe_audio_file Demo.engine DemoServer.externals DemoServer.upload
            "auto" DemoServer.world_empty))
  = transcriptions DemoServer.world_empty.
Proof.
  destruct (returned_response_reports_the_pipeline Demo.engine DemoServer.externals
              DemoServer.upload "auto" DemoServer.world_empty
              (Response.mk "3f2b8c1e-6d4a-4e0b-9a57-1c2d3e4f5a6b" "talk.mp3" "auto" ""
                 None 4 1700000000 false
                 (Some "Failed to load speech recognition model for en")))
    as [(Hsuccess & _) | (_ & _ & _ & _ & Hsame)].
  - vm_compute. reflexivity.
  - discriminate Hsuccess.
  - exact Hsame.
Defined.



(** X22.  The upload is written to a temporary file of its own, and the
    [finally] clause of the handler removes it: when the request was
    accepted and [os.unlink] does not raise, that file is gone when the
    handler ends, and the handler ends with a response or with the
    status 500. *)
Theorem upload_file_is_removed (E : Externals) (S : ServerExternals)
  (upload : Upload.t) (language tmp_path : string) (w : ServerWorld E) :
  accepted E upload language w ->
  NamedTemporaryFile E (fs (core w)) (path_suffix S (Upload.filename upload))
  = Ok tmp_path ->
  unlink_error E tmp_path = None ->
  fs (core (snd (transcribe_audio_file E S upload language w))) !! tmp_path = None /\
  ((exists r, fst (transcribe_audio_file E S upload language w) = Returned r) \/
   (exists e, fst (transcribe_audio_file E S upload language w) = HTTPError e /\
              status_code e = 500%N)).
Proof.
  intros Haccepted Htmp Hunlink.
  rewrite (transcribe_audio_file_accepted E S upload language w Haccepted), Htmp.
  cbv zeta.
  destruct (cleanup E tmp_path _) as [c|msg] eqn:Hcleanup.
  - cbn [fst snd core]. split; [exact (cleanup_removes E _ _ _ Hcleanup)|].
    destruct (fst (transcribe_attempt E S upload language tmp_path _)); eauto.
  - unfold cleanup in Hcleanup. rewrite Hunlink in Hcleanup.
    destruct (path_exists _ tmp_path); discriminate.
Qed.

Lemma upload_file_is_removed_witness :
  fs (core (snd (transcribe_audio_file Demo.engine DemoServer.externals DemoServer.upload
                   "auto" DemoServer.world_empty))) !! "/tmp/tmpk3v9.mp3" = None /\
  ((exists r,
       fst (transcribe_audio_file Demo.engine DemoServer.externals DemoServer.upload
              "auto" DemoServer.world_empty) = Returned r) \/
   (exists e,
       fst (transcribe_audio_file Demo.engine DemoServer.externals DemoServer.upload
              "auto" DemoServer.world_empty) = HTTPError e /\
       status_code e = 500%N)).
Proof.
  apply (upload_file_is_removed Demo.engine DemoServer.externals DemoServer.upload
           "auto" "/tmp/tmpk3v9.mp3" DemoServer.world_empty).
  - split; [reflexivity|]. split; [reflexivity|]. right. reflexivity.
  - reflexivity.
  - reflexivity.
Defined.


(** X24.  After a deletion that was answered with the message, the document is
    gone: fetching it and deleting it again are both answered with 404;
    the other documents and the state of the pipeline are as before. *)
Theorem deleted_transcription_is_gone (E : Externals) (S S' : ServerExternals)
  (transcription_id : string) (w w' : ServerWorld E) (message : gmap string pyval) :
  delete_transcription E S transcription_id w = (Returned message, w') ->
  find_one_error S' = None ->
  delete_one_error S' = None ->
  core w' = core w /\
  get_transcription E S' transcription_id w'
  = HTTPError (mkHTTPException 404 "Transcription not found") /\
  delete_transcription E S' transcription_id w'
  = (HTTPError (mkHTTPException 404 "Transcription not found"), w') /\
  (forall other, other <> transcription_id ->
                 get_transcription E S' other w' = get_transcription E S' other w).
Proof.
  unfold delete_transcription at 1.
  destruct (delete_one_error S); [discriminate|].
  destruct (transcriptions w !! transcription_id) as [document|] eqn:Hstored;
    [|discriminate].
  intros [= _ <-] Hfind Hdelete.
  unfold get_transcription, delete_transcription. rewrite Hfind, Hdelete.
  cbn [core transcriptions]. rewrite lookup_delete_eq.
  repeat split. intros other Hother. now rewrite lookup_delete_ne.
Qed.

Lemma deleted_transcription_is_gone_witness :
  core (snd (delete_transcription Demo.engine DemoServer.externals
               "3f2b8c1e-6d4a-4e0b-9a57-1c2d3e4f5a6b"
               (snd (transcribe_audio_file Demo.engine DemoServer.externals
                       DemoServer.upload "en" DemoServer.world_en))))
  = core (snd (transcribe_audio_file Demo.engine DemoServer.externals
                 DemoServer.upload "en" DemoServer.world_en)) /\
  get_transcription Demo.engine DemoServer.externals "3f2b8c1e-6d4a-4e0b-9a57-1c2d3e4f5a6b"
    (snd (delete_transcription Demo.engine DemoServer.externals
            "3f2b8c1e-6d4a-4e0b-9a57-1c2d3e4f5a6b"
            (snd (transcribe_audio_file Demo.engine DemoServer.externals
                    DemoServer.upload "en" DemoServer.world_en))))
  = HTTPError (mkHTTPException 404 "Transcription not found").
Proof.
  destruct (deleted_transcription_is_gone Demo.engine DemoServer.externals
              DemoServer.externals "3f2b8c1e-6d4a-4e0b-9a57-1c2d3e4f5a6b"
              (snd (transcribe_audio_file Demo.engine DemoServer.externals
                      DemoServer.upload "en" DemoServer.world_en))
              (snd (delete_transcription Demo.engine DemoServer.externals
                      "3f2b8c1e-6d4a-4e0b-9a57-1c2d3e4f5a6b"
                      (snd (transcribe_audio_file Demo.engine DemoServer.externals
                              DemoServer.upload "en" DemoServer.world_en))))
              {[ "message" := VStr "Transcription deleted successfully" ]})
    as (Hcore & Hget & _);
    try (vm_compute; reflexivity).
  split; [exact Hcore|exact Hget].
Defined.

(** X25.  [GET /api/health] answers "healthy" exactly when the engine and the
    decoder are importable and the list of available languages of the
    same answer is not empty; otherwise it answers "limited". *)
Theorem health_endpoint_status (E : Externals) (w : ServerWorld E) :
  (status (health_check_endpoint E w) = "healthy" \/
   status (health_check_endpoint E w) = "limited") /\
  (status (health_check_endpoint E w) = "healthy" <->
   VOSK_AVAILABLE E = true /\ PYDUB_AVAILABLE E = true /\
   exists lang name, available_languages (health_check_endpoint E w) !! lang = Some name).
Proof.
  unfold health_check_endpoint. cbn [status available_languages].
  change (ready (health_check E (core w)))
    with (VOSK_AVAILABLE E && PYDUB_AVAILABLE E
          && any_values (models_available (health_check E (core w)))).
  pose proof (any_model_available_iff E (core w)) as Hany.
  destruct (VOSK_AVAILABLE E); cbn [andb];
    [|split; [right; reflexivity|split; [discriminate|intros (H & _); discriminate]]].
  destruct (PYDUB_AVAILABLE E); cbn [andb];
    [|split; [right; reflexivity|split; [discriminate|intros (_ & H & _); discriminate]]].
  destruct (any_values (models_available (health_check E (core w)))) eqn:Hmodels.
  - split; [left; reflexivity|]. split; [|reflexivity].
    intros _. repeat split. now apply Hany.
  - split; [right; reflexivity|]. split; [discriminate|].
    intros (_ & _ & Hlisted). apply Hany in Hlisted; [discriminate|reflexivity].
Qed.


Lemma convert_audio_to_wav_keeps_file_on_export_error_witness :
  fst (convert_audio_to_wav DemoFaults.engine_export_raises "/uploads/a.mp3" 16000
         DemoFaults.world_en_export_raises) = None /\
  fs (snd (convert_audio_to_wav DemoFaults.engine_export_raises "/uploads/a.mp3" 16000
             DemoFaults.world_en_export_raises)) !! Demo.tmp_wav = Some EmptyFile.
Proof.
  apply (convert_audio_to_wav_keeps_file_on_export_error DemoFaults.engine_export_raises
           "/uploads/a.mp3" Demo.tmp_wav "[Errno 28] No space left on device" 16000
           DemoFaults.world_en_export_raises
           [Demo.sample; Demo.sample; Demo.sample]
           [Demo.sample; Demo.sample; Demo.sample]
           [Demo.sample; Demo.sample; Demo.sample]);
    reflexivity.
Defined.

Lemma transcribe_audio_keeps_wav_without_recognizer_witness :
  fst (transcribe_audio Demo.engine "/uploads/a.mp3" "ru" Demo.world_en)
  = failure_result ("Failed to load speech recognition model for " ++ vosk_lang_of "ru") /\
  fs (snd (transcribe_audio Demo.engine "/uploads/a.mp3" "ru" Demo.world_en))
    !! Demo.tmp_wav
  = Some (WavFile [Demo.sample; Demo.sample; Demo.sample]).
Proof.
  apply (transcribe_audio_keeps_wav_without_recognizer Demo.engine "/uploads/a.mp3" "ru"
           Demo.tmp_wav Demo.world_en
           (snd (convert_audio_to_wav Demo.engine "/uploads/a.mp3" 16000 Demo.world_en))
           (snd (convert_audio_to_wav Demo.engine "/uploads/a.mp3" 16000 Demo.world_en)));
    vm_compute; reflexivity.
Defined.

(** ** Post-processing twice *)





















(** ** The test client *)




Example get_backend_url_keeps_later_equals_signs :
  get_backend_url
    (Some ["REACT_APP_BACKEND_URL= https://api.example.org/?env=dev " ++ String "010" ""])
  = Ok "https://api.example.org/?env=dev".
Proof. reflexivity. Qed.
